(** * ai-codereviewer: a shallow embedding of [src/main.ts]

    The action reads a pull request's diff, asks a chat model to review each
    hunk and posts the answers as line comments.  This development embeds
    the TypeScript program as Rocq functions and proves properties of the
    line-number pipeline, the path filters and the error handling.

    Layout: JavaScript values and the platform the program runs on; the
    data model of [parse-diff]; the functions of [main.ts], in source
    order and under their source names; sample environments; theorems. *)

From Stdlib Require Import String Ascii List ZArith QArith Bool Lia DecimalString.
Import ListNotations.
Close Scope Q_scope.
Open Scope Z_scope.
Open Scope string_scope.
Open Scope list_scope.

Set Implicit Arguments.
Set Warnings "-register-all".

(* ================================================================= *)
(** ** JavaScript values *)

(** A JavaScript number, as far as this program can tell numbers apart:
    the program only ever compares a converted number with the integer
    line counters of a diff.  [Int z] is the integral value [z] (the two
    zeros are one value for [Set.prototype.has]), [NaN] is not-a-number
    and [NonInt] stands for every other value (fractions, infinities). *)
Inductive number : Type :=
| Int (z : Z)
| NaN
| NonInt.

(** What [JSON.parse] and property reads can produce. *)
Inductive value : Type :=
| VUndefined
| VNull
| VBool (b : bool)
| VNum (n : number)
| VStr (s : string)
| VArr (items : list value)
| VObj (fields : list (string * value)).

Inductive error : Type :=
| TypeError      (* reading a property of null, calling a non-function *)
| SyntaxError    (* JSON.parse *)
| RequestError.  (* a rejected HTTP request *)

(** The outcome of evaluating an expression that may throw. *)
Inductive result (A : Type) : Type :=
| Ok (a : A)
| Throw (e : error).
Arguments Throw {A} e.

Definition result_bind {A B} (r : result A) (k : A -> result B) : result B :=
  match r with
  | Ok a => k a
  | Throw e => Throw e
  end.

(** [if (v)]: the falsy values are undefined, null, false, 0, NaN and the
    empty string. *)
Definition truthy (v : value) : bool :=
  match v with
  | VUndefined | VNull => false
  | VBool b => b
  | VNum (Int z) => negb (Z.eqb z 0)
  | VNum NaN => false
  | VNum NonInt => true
  | VStr s => negb (String.eqb s EmptyString)
  | VArr _ | VObj _ => true
  end.

(** Own property of an object literal; in JSON text a repeated key keeps
    its last value. *)
Definition own_property (key : string) (fields : list (string * value)) : value :=
  fold_left (fun found kv => if String.eqb (fst kv) key then snd kv else found)
            fields VUndefined.

(** [v.key] for the keys this program reads ([reviews], [lineNumber],
    [reviewComment]), none of which is a property of a string, number,
    boolean or array prototype. *)
Definition get (v : value) (key : string) : result value :=
  match v with
  | VUndefined | VNull => Throw TypeError
  | VObj fields => Ok (own_property key fields)
  | VBool _ | VNum _ | VStr _ | VArr _ => Ok VUndefined
  end.

(** Whether [Number(v)] throws.  The conversion turns an object or an
    array into a primitive through its [valueOf] and [toString].  A value
    built by [JSON.parse] has no callable property of its own: an object
    with an own [toString] property shadows the inherited method and cannot
    be converted, whatever its [valueOf]; an array is joined through the
    string conversion of its elements, null and undefined excepted, which
    fails for such an object in the same way.  The conversion then throws a
    TypeError; on every other value it returns. *)
Fixpoint Number_throws (v : value) : bool :=
  match v with
  | VObj fields => existsb (fun kv => String.eqb (fst kv) "toString") fields
  | VArr items => existsb Number_throws items
  | VUndefined | VNull | VBool _ | VNum _ | VStr _ => false
  end.

(** [v.flatMap(callback)]: only an array has the method; the callback's
    results are concatenated, and a throw in the callback leaves the loop. *)
Fixpoint flatMap_items {B} (callback : value -> result (list B)) (items : list value)
  : result (list B) :=
  match items with
  | [] => Ok []
  | item :: rest =>
      result_bind (callback item) (fun here =>
      result_bind (flatMap_items callback rest) (fun there =>
      Ok (here ++ there)))
  end.

Definition flatMap {B} (v : value) (callback : value -> result (list B))
  : result (list B) :=
  match v with
  | VArr items => flatMap_items callback items
  | _ => Throw TypeError
  end.

(** [new Set(iterable)] over the integer line counters: insertion ordered,
    no repetition.  [Set_has] is [Set.prototype.has] at a converted number:
    no value other than an integer equals a member. *)
Definition Set_add (s : list Z) (x : Z) : list Z :=
  if existsb (Z.eqb x) s then s else s ++ [x].

Definition Set_new (xs : list Z) : list Z := fold_left Set_add xs [].

Definition Set_has (s : list Z) (n : number) : bool :=
  match n with
  | Int z => existsb (Z.eqb z) s
  | NaN | NonInt => false
  end.

(** Number to string, for integers. *)
Definition string_of_Z (z : Z) : string := NilZero.string_of_int (Z.to_int z).

Definition dq : string := String "034"%char EmptyString.
Definition LF : string := String "010"%char EmptyString.

(** [s.trim()].  A string holds the UTF-8 bytes of the JavaScript string.
    [trim] strips the white space and the line terminators of ECMAScript:
    TAB, LF, VT, FF, CR and SP, one byte each; U+00A0, two bytes; and
    U+1680, U+2000 to U+200A, U+2028, U+2029, U+202F, U+205F, U+3000 and
    U+FEFF, three bytes each. *)
Definition is_space (c : ascii) : bool :=
  existsb (Ascii.eqb c) [" "%char; "009"%char; "010"%char; "011"%char; "012"%char; "013"%char].

Definition two_byte_space (a b : ascii) : bool :=
  Ascii.eqb a "194"%char && Ascii.eqb b "160"%char.

Definition three_byte_space (a b c : ascii) : bool :=
  (Ascii.eqb a "225"%char && Ascii.eqb b "154"%char && Ascii.eqb c "128"%char)
  || (Ascii.eqb a "226"%char && Ascii.eqb b "128"%char
      && ((Nat.leb 128 (nat_of_ascii c) && Nat.leb (nat_of_ascii c) 138)
          || Ascii.eqb c "168"%char || Ascii.eqb c "169"%char || Ascii.eqb c "175"%char))
  || (Ascii.eqb a "226"%char && Ascii.eqb b "129"%char && Ascii.eqb c "159"%char)
  || (Ascii.eqb a "227"%char && Ascii.eqb b "128"%char && Ascii.eqb c "128"%char)
  || (Ascii.eqb a "239"%char && Ascii.eqb b "187"%char && Ascii.eqb c "191"%char).

Fixpoint trimStart (s : string) : string :=
  match s with
  | EmptyString => EmptyString
  | String a rest =>
      if is_space a then trimStart rest
      else
        match rest with
        | EmptyString => s
        | String b rest1 =>
            if two_byte_space a b then trimStart rest1
            else
              match rest1 with
              | EmptyString => s
              | String c rest2 =>
                  if three_byte_space a b c then trimStart rest2 else s
              end
        end
  end.

(** The string is white space from end to end. *)
Definition blank (s : string) : bool := String.eqb (trimStart s) EmptyString.

(** The bytes are kept up to the point from which only white space is
    left. *)
Fixpoint trimEnd (s : string) : string :=
  match s with
  | EmptyString => EmptyString
  | String c rest => if blank s then EmptyString else String c (trimEnd rest)
  end.

Definition trim (s : string) : string := trimEnd (trimStart s).

(** [s.split(",")]: the empty string splits into one empty piece. *)
Fixpoint split_comma (s : string) : list string :=
  match s with
  | EmptyString => [EmptyString]
  | String c rest =>
      if Ascii.eqb c ","%char then EmptyString :: split_comma rest
      else match split_comma rest with
           | piece :: pieces => String c piece :: pieces
           | [] => [String c EmptyString]
           end
  end.

(* ================================================================= *)
(** ** The data model of parse-diff *)

(** [Change = NormalChange | AddChange | DeleteChange].  The line counters
    are the integers parse-diff counts up from the hunk header: [ln1] and a
    deletion's [ln] count old-file lines, [ln2] and an addition's [ln]
    count new-file lines. *)
Inductive Change : Type :=
| NormalChange (ln1 ln2 : Z) (content : string)
| AddChange (ln : Z) (content : string)
| DeleteChange (ln : Z) (content : string).

(** The keys each variant carries, for the [in] operator. *)
Definition keys (change : Change) : list string :=
  match change with
  | NormalChange _ _ _ => ["type"; "normal"; "ln1"; "ln2"; "content"]
  | AddChange _ _ => ["type"; "add"; "ln"; "content"]
  | DeleteChange _ _ => ["type"; "del"; "ln"; "content"]
  end.

Definition key_in (key : string) (change : Change) : bool :=
  existsb (String.eqb key) (keys change).

(** Field reads; a missing field reads as undefined. *)
Definition ln (change : Change) : option Z :=
  match change with
  | AddChange n _ | DeleteChange n _ => Some n
  | NormalChange _ _ _ => None
  end.

Definition ln2 (change : Change) : option Z :=
  match change with
  | NormalChange _ n _ => Some n
  | AddChange _ _ | DeleteChange _ _ => None
  end.

Definition content (change : Change) : string :=
  match change with
  | NormalChange _ _ text | AddChange _ text | DeleteChange _ text => text
  end.

(** What parse-diff guarantees about the counters. *)
Definition well_formed (change : Change) : Prop :=
  match change with
  | NormalChange old new _ => 0 <= old /\ 0 <= new
  | AddChange n _ | DeleteChange n _ => 0 <= n
  end.

Record Chunk : Type := {
  chunk_content : string;     (* the hunk header line *)
  changes : list Change;
  oldStart : Z; oldLines : Z; newStart : Z; newLines : Z
}.

Record File : Type := {
  chunks : list Chunk;
  file_from : option string;
  file_to : option string     (* [to]; the text /dev/null for a deleted file *)
}.

Record PRDetails : Type := {
  owner : string;
  repo : string;
  pull_number : Z;
  title : string;
  description : string
}.

Record ReviewComment : Type := {
  body : value;
  path : string;
  line : number
}.

(* ================================================================= *)
(** ** The platform *)

(** The request [openai.chat.completions.create] receives. *)
Record Request : Type := {
  model : string;
  temperature : Q;
  max_tokens : Z;
  top_p : Z;
  frequency_penalty : Q;
  presence_penalty : Q;
  response_format : string;            (* the [type] of [response_format] *)
  messages : list (string * string)    (* role, content *)
}.

(** The pull-request event payload at [GITHUB_EVENT_PATH], parsed. *)
Record EventData : Type := {
  action : value;
  repository_owner_login : string;
  repository_name : string;
  event_number : Z;          (* [number] *)
  before : value;
  after : value
}.

(** Everything [main.ts] calls and does not define.  A remote call that
    answers [None] is a rejected promise. *)
Class Environment : Type := {
  (* @actions/core, process.env *)
  getInput : string -> string;
  GITHUB_EVENT_NAME : string;
  (* ECMAScript built-ins: the number [Number(v)] returns when it returns,
     and [JSON.parse] with [None] for a SyntaxError *)
  Number : value -> number;
  JSON_parse : string -> option value;
  (* npm libraries *)
  minimatch : string -> string -> bool;
  parseDiff : string -> list File;
  (* octokit: [pulls.get] (title and body), [pulls.get] in diff format,
     [repos.compareCommits] (the data, through [String]),
     [repos.getContent] (the decoded text when the data carries a string
     content), [pulls.createReview] *)
  pulls_get : string -> string -> Z -> option (option string * option string);
  pulls_get_diff : string -> string -> Z -> option (option string);
  repos_compareCommits : string -> string -> value -> value -> option string;
  repos_getContent : string -> string -> option string -> string -> option (option string);
  pulls_createReview : string -> string -> Z -> list ReviewComment -> option unit;
  (* openai: the answer to the n-th request of the run, as the list of
     [choices[i].message?.content] *)
  chat_completions_create : nat -> Request -> option (list (option string))
}.

(** What a run does to the outside, in order.  [parseDiff] is a pure call;
    it is recorded so that a trace shows whether the diff was parsed. *)
Inductive Event : Type :=
| E_pulls_get (owner repo : string) (pull_number : Z)
| E_pulls_get_diff (owner repo : string) (pull_number : Z)
| E_compareCommits (owner repo : string) (base head : value)
| E_getContent (owner repo : string) (path : option string) (ref : string)
| E_chat (request : Request)
| E_parseDiff (diff : string)
| E_createReview (owner repo : string) (pull_number : Z) (comments : list ReviewComment)
| E_console_log (text : string)
| E_console_error (text : string).

Record State : Type := {
  requests : nat;          (* model requests issued so far *)
  trace : list Event
}.

Definition start : State := {| requests := 0; trace := [] |}.

(** An [async] computation: it returns or throws, and leaves a trace. *)
Definition M (A : Type) : Type := State -> result A * State.

Definition ret {A} (a : A) : M A := fun s => (Ok a, s).

Definition throw {A} (e : error) : M A := fun s => (Throw e, s).

Definition bind {A B} (m : M A) (k : A -> M B) : M B :=
  fun s =>
    match m s with
    | (Ok a, s') => k a s'
    | (Throw e, s') => (Throw e, s')
    end.

Definition lift {A} (r : result A) : M A := fun s => (r, s).

Definition try_catch {A} (block : M A) (handler : error -> M A) : M A :=
  fun s =>
    match block s with
    | (Ok a, s') => (Ok a, s')
    | (Throw e, s') => handler e s'
    end.

Definition emit (e : Event) : M unit :=
  fun s => (Ok tt, {| requests := requests s; trace := trace s ++ [e] |}).

Declare Scope async_scope.
Delimit Scope async_scope with async.
Notation "x <- m ;; k" := (bind m (fun x => k))
  (at level 61, m at next level, right associativity) : async_scope.
Notation "m ;; k" := (bind m (fun _ => k))
  (at level 61, right associativity) : async_scope.
Open Scope async_scope.

(** [await] of a remote call. *)
Definition await {A} (e : Event) (answer : option A) : M A :=
  emit e ;;
  match answer with
  | Some a => ret a
  | None => throw RequestError
  end.

(** The counter of model requests, read and advanced. *)
Definition next_request : M nat :=
  fun s => (Ok (requests s), {| requests := S (requests s); trace := trace s |}).

(** [process.exit(1)] from the [catch] on [main()], 0 otherwise. *)
Definition exit_code {A} (outcome : result A * State) : Z :=
  match fst outcome with
  | Ok _ => 0
  | Throw _ => 1
  end.

(* ================================================================= *)
(** ** main.ts *)

Section Main.
Context {env : Environment}.

Definition GITHUB_TOKEN : string := getInput "GITHUB_TOKEN".
Definition OPENAI_API_KEY : string := getInput "OPENAI_API_KEY".
Definition OPENAI_API_MODEL : string := getInput "OPENAI_API_MODEL".

(** [x ?? fallback] on a string. *)
Definition nullish (x : option string) (fallback : string) : string :=
  match x with
  | Some s => s
  | None => fallback
  end.

(** [Number(v)]: a TypeError where the conversion throws, the environment's
    number where it returns. *)
Definition to_number (v : value) : result number :=
  if Number_throws v then Throw TypeError else Ok (Number v).

Definition getPRDetails (eventData : EventData) : M PRDetails :=
  let login := repository_owner_login eventData in
  let name := repository_name eventData in
  let number := event_number eventData in
  prResponse <- await (E_pulls_get login name number) (pulls_get login name number) ;;
  ret {| owner := login;
         repo := name;
         pull_number := number;
         title := nullish (fst prResponse) EmptyString;
         description := nullish (snd prResponse) EmptyString |}.

Definition getDiff (owner repo : string) (pull_number : Z) : M (option string) :=
  await (E_pulls_get_diff owner repo pull_number) (pulls_get_diff owner repo pull_number).

Definition getFileContent (owner repo : string) (path : option string) (ref : string)
  : M (option string) :=
  try_catch
    (await (E_getContent owner repo path ref) (repos_getContent owner repo path ref))
    (fun _ => emit (E_console_error "Error fetching file content") ;; ret None).

(** Helper function to get line number from a Change *)
Definition getLineNumber (change : Change) : option Z :=
  if key_in "normal" change then ln2 change
  else if key_in "add" change then ln change
  else if key_in "del" change then ln change
  else None.

(** Helper function to check if change is an addition or deletion *)
Definition isAddOrDel (change : Change) : bool :=
  key_in "add" change || key_in "del" change.

(** [.filter((ln): ln is number => ln !== undefined)] *)
Fixpoint defined (lns : list (option Z)) : list Z :=
  match lns with
  | [] => []
  | Some n :: rest => n :: defined rest
  | None :: rest => defined rest
  end.

(** The line numbers that were actually changed, as [createPrompt] builds
    them. *)
Definition changedLines (chunk : Chunk) : list Z :=
  Set_new (defined (map getLineNumber (filter isAddOrDel (changes chunk)))).

(** [${getLineNumber(c) || ""} ${c.content}] *)
Definition annotated (c : Change) : string :=
  (match getLineNumber c with
   | Some n => if Z.eqb n 0 then EmptyString else string_of_Z n
   | None => EmptyString
   end ++ " " ++ content c)%string.

Definition createPrompt (file : File) (chunk : Chunk) (prDetails : PRDetails)
    (fullFileContent : option string) : string :=
  let contextSection :=
    match fullFileContent with
    | Some text =>
        if String.eqb text EmptyString then EmptyString
        else (LF ++ "Full file context:" ++ LF ++ "```" ++ LF ++ text ++ LF ++ "```" ++ LF)%string
    | None => EmptyString
    end in
  ("You are an expert code reviewer focused on identifying only critical issues. Instructions:

- Provide the response in following JSON format: {" ++ dq ++ "reviews" ++ dq ++ ": [{" ++ dq ++ "lineNumber" ++ dq ++ ": <line_number>, " ++ dq ++ "reviewComment" ++ dq ++ ": " ++ dq ++ "<review comment>" ++ dq ++ "}]}
- ONLY comment on the most critical issues that fall into these categories:
  1. High-impact bugs that could cause system failures or data corruption
  2. Critical security vulnerabilities that could lead to exploits
  3. Severe performance issues that could cause system bottlenecks
  4. Major architectural flaws that significantly impact maintainability
  5. Critical business logic flaws that could lead to system misbehavior
- You may only comment on the following changed line numbers: "
  ++ String.concat ", " (map string_of_Z (changedLines chunk)) ++ "
- Completely ignore:
  * Style issues or formatting
  * Documentation
  * Minor optimizations
  * Naming conventions
  * Code organization suggestions
  * Any issue that isn't immediately critical
- Only provide comments when you are highly confident (90%+) that the issue is severe
- Write comments in GitHub Markdown format
- Be direct and specific about the severe impact of each issue
- If you don't find any critical issues, return an empty reviews array

Review the following code diff in the file " ++ dq
  ++ nullish (file_to file) "undefined"
  ++ dq ++ " considering the pull request context:
  
Pull request title: " ++ title prDetails ++ "
Pull request description:

---
" ++ description prDetails ++ "
---
" ++ contextSection ++ "
Git diff to review:

```diff
" ++ chunk_content chunk ++ LF
  ++ String.concat LF (map annotated (changes chunk)) ++ "
```
")%string.

Definition queryConfig : Request :=
  {| model := "gpt-4o-2024-11-20";
     temperature := (1 # 10)%Q;
     max_tokens := 1000;
     top_p := 1;
     frequency_penalty := (1 # 10)%Q;
     presence_penalty := (1 # 10)%Q;
     response_format := EmptyString;
     messages := [] |}.

(** [{...queryConfig, response_format, messages}] *)
Definition chat_request (prompt : string) : Request :=
  {| model := model queryConfig;
     temperature := temperature queryConfig;
     max_tokens := max_tokens queryConfig;
     top_p := top_p queryConfig;
     frequency_penalty := frequency_penalty queryConfig;
     presence_penalty := presence_penalty queryConfig;
     response_format := "json_object";
     messages :=
       [("system",
         "You are an expert code reviewer. Only respond with the requested JSON format.");
        ("user", prompt)] |}.

(** The reviews of the model's answer, or null when the request, the
    reading of the first choice or the parsing throws. *)
Definition getAIResponse (prompt : string) : M value :=
  try_catch
    (n <- next_request ;;
     response <- await (E_chat (chat_request prompt))
                       (chat_completions_create n (chat_request prompt)) ;;
     first <- lift (match response with
                    | choice :: _ => Ok choice
                    | [] => Throw TypeError
                    end) ;;
     let res :=
       match first with
       | Some text => if String.eqb (trim text) EmptyString then "{}" else trim text
       | None => "{}"
       end in
     parsed <- lift (match JSON_parse res with
                     | Some v => Ok v
                     | None => Throw SyntaxError
                     end) ;;
     lift (get parsed "reviews"))
    (fun _ => emit (E_console_error "Error:") ;; ret VNull).

(** The valid line numbers from the chunk, as [createComment] builds them. *)
Definition validLines (chunk : Chunk) : list Z :=
  Set_new (defined (map getLineNumber (filter isAddOrDel (changes chunk)))).

(** The callback of [createComment]'s [flatMap]. *)
Definition comment_of (file : File) (chunk : Chunk) (aiResponse : value)
  : result (list ReviewComment) :=
  match file_to file with
  | None => Ok []
  | Some to =>
      if String.eqb to EmptyString then Ok []
      else
        result_bind (get aiResponse "lineNumber") (fun lineNumber_ =>
        result_bind (to_number lineNumber_) (fun lineNumber =>
        (* Only create comments for lines that were actually changed *)
        if negb (Set_has (validLines chunk) lineNumber) then Ok []
        else
          result_bind (get aiResponse "reviewComment") (fun reviewComment =>
          Ok [ {| body := reviewComment; path := to; line := lineNumber |} ])))
  end.

Definition createComment (file : File) (chunk : Chunk) (aiResponses : value)
  : result (list ReviewComment) :=
  flatMap aiResponses (comment_of file chunk).

Definition createReviewComment (owner repo : string) (pull_number : Z)
    (comments : list ReviewComment) : M unit :=
  await (E_createReview owner repo pull_number comments)
        (pulls_createReview owner repo pull_number comments).

(** The inner loop of [analyzeCode], over the chunks of one file. *)
Fixpoint analyzeChunks (file : File) (prDetails : PRDetails)
    (fullFileContent : option string) (chunks : list Chunk)
    (comments : list ReviewComment) : M (list ReviewComment) :=
  match chunks with
  | [] => ret comments
  | chunk :: rest =>
      let prompt := createPrompt file chunk prDetails fullFileContent in
      aiResponse <- getAIResponse prompt ;;
      comments' <-
        (if truthy aiResponse then
           newComments <- lift (createComment file chunk aiResponse) ;;
           (* [if (newComments)]: an array is truthy *)
           ret (comments ++ newComments)
         else ret comments) ;;
      analyzeChunks file prDetails fullFileContent rest comments'
  end.

(** The outer loop of [analyzeCode], over the files. *)
Fixpoint analyzeFiles (prDetails : PRDetails) (parsedDiff : list File)
    (comments : list ReviewComment) : M (list ReviewComment) :=
  match parsedDiff with
  | [] => ret comments
  | file :: rest =>
      if match file_to file with
         | Some to => String.eqb to "/dev/null"
         | None => false
         end
      then analyzeFiles prDetails rest comments   (* Ignore deleted files *)
      else
        fullFileContent <-
          getFileContent (owner prDetails) (repo prDetails) (file_to file)
            ("pull/" ++ string_of_Z (pull_number prDetails) ++ "/head")%string ;;
        comments' <-
          analyzeChunks file prDetails
            (match fullFileContent with
             | Some text => if String.eqb text EmptyString then None else Some text
             | None => None
             end)
            (chunks file) comments ;;
        analyzeFiles prDetails rest comments'
  end.

Definition analyzeCode (parsedDiff : list File) (prDetails : PRDetails)
  : M (list ReviewComment) :=
  analyzeFiles prDetails parsedDiff [].

(** [v === s] for a string literal [s]. *)
Definition is_string (v : value) (s : string) : bool :=
  match v with
  | VStr t => String.eqb t s
  | _ => false
  end.

Definition excludePatterns : list string :=
  map trim (split_comma (getInput "exclude")).

Definition filteredDiff (parsedDiff : list File) : list File :=
  filter (fun file =>
            negb (existsb (fun pattern => minimatch (nullish (file_to file) EmptyString) pattern)
                          excludePatterns))
         parsedDiff.

(** [main] from the [if (!diff)] test on. *)
Definition review (prDetails : PRDetails) (diff : option string) : M unit :=
  match diff with
  | None => emit (E_console_log "No diff found")
  | Some text =>
      if String.eqb text EmptyString then emit (E_console_log "No diff found")
      else
        emit (E_parseDiff text) ;;
        let parsedDiff := parseDiff text in
        comments <- analyzeCode (filteredDiff parsedDiff) prDetails ;;
        match comments with
        | [] => ret tt
        | _ :: _ =>
            createReviewComment (owner prDetails) (repo prDetails)
              (pull_number prDetails) comments
        end
  end.

Definition main (eventData : EventData) : M unit :=
  prDetails <- getPRDetails eventData ;;
  if is_string (action eventData) "opened" then
    diff <- getDiff (owner prDetails) (repo prDetails) (pull_number prDetails) ;;
    review prDetails diff
  else if is_string (action eventData) "synchronize" then
    let newBaseSha := before eventData in
    let newHeadSha := after eventData in
    response <-
      await (E_compareCommits (owner prDetails) (repo prDetails) newBaseSha newHeadSha)
            (repos_compareCommits (owner prDetails) (repo prDetails) newBaseSha newHeadSha) ;;
    review prDetails (Some response)
  else
    emit (E_console_log ("Unsupported event: " ++ GITHUB_EVENT_NAME)%string).

End Main.

(** The declared shape of one review of the model's answer, and the value
    [JSON.parse] builds for it. *)
Record AIResponse : Type := {
  lineNumber : string;
  reviewComment : string
}.

Definition entry (r : AIResponse) : value :=
  VObj [("lineNumber", VStr (lineNumber r)); ("reviewComment", VStr (reviewComment r))].

(** A property read that cannot throw, for stating which entries count. *)
Definition read (v : value) (key : string) : value :=
  match get v key with
  | Ok x => x
  | Throw _ => VUndefined
  end.

(** The review names a line of the chunk's valid set. *)
Definition names_valid_line {env : Environment} (chunk : Chunk) (aiResponse : value) : bool :=
  Set_has (validLines chunk) (Number (read aiResponse "lineNumber")).

(** A number is eligible for a chunk when it is the resolved line number
    of one of the chunk's Addition or Deletion changes. *)
Definition eligible (chunk : Chunk) (n : number) : Prop :=
  exists z change,
    n = Int z /\ In change (changes chunk) /\ isAddOrDel change = true
    /\ getLineNumber change = Some z.

Definition deleted (file : File) : bool :=
  match file_to file with
  | Some to => String.eqb to "/dev/null"
  | None => false
  end.

Definition is_normal (change : Change) : bool := key_in "normal" change.

Definition without_context (chunk : Chunk) : Chunk :=
  {| chunk_content := chunk_content chunk;
     changes := filter (fun c => negb (is_normal c)) (changes chunk);
     oldStart := oldStart chunk; oldLines := oldLines chunk;
     newStart := newStart chunk; newLines := newLines chunk |}.

(** The events of the review itself, as opposed to the metadata fetch and
    the console. *)
Definition is_work (e : Event) : bool :=
  match e with
  | E_pulls_get_diff _ _ _ | E_compareCommits _ _ _ _ | E_getContent _ _ _ _
  | E_chat _ | E_parseDiff _ | E_createReview _ _ _ _ => true
  | E_pulls_get _ _ _ | E_console_log _ | E_console_error _ => false
  end.

(** The event is part of the review of [file]: the fetch of its content, a
    model request whose prompt was built for one of its chunks, or the
    console line of a recovered failure. *)
Definition reviews_file {env : Environment} (prDetails : PRDetails) (file : File)
    (e : Event) : Prop :=
  match e with
  | E_getContent _ _ path _ => path = file_to file
  | E_chat request =>
      exists chunk fullFileContent,
        In chunk (chunks file)
        /\ request = chat_request (createPrompt file chunk prDetails fullFileContent)
  | E_console_error _ => True
  | E_pulls_get _ _ _ | E_pulls_get_diff _ _ _ | E_compareCommits _ _ _ _
  | E_parseDiff _ | E_createReview _ _ _ _ | E_console_log _ => False
  end.

Definition is_createReview (e : Event) : bool :=
  match e with
  | E_createReview _ _ _ _ => true
  | _ => false
  end.

Definition chat_requests (events : list Event) : list Request :=
  flat_map (fun e => match e with
                     | E_chat request => [request]
                     | _ => []
                     end) events.

Definition reviews_posted (events : list Event) : list (list ReviewComment) :=
  flat_map (fun e => match e with
                     | E_createReview _ _ _ comments => [comments]
                     | _ => []
                     end) events.

(* ================================================================= *)
(** ** Sample data and environments *)

Module Sample.

(** A hunk that replaces one line by two. *)
Definition chunk : Chunk :=
  {| chunk_content := "@@ -8,3 +8,4 @@";
     changes := [ NormalChange 8 8 " def ratio(a, b):";
                  DeleteChange 9 "-    return a";
                  AddChange 9 "+    q = a / b";
                  AddChange 10 "+    return q";
                  NormalChange 10 11 " " ];
     oldStart := 8; oldLines := 3; newStart := 8; newLines := 4 |}.

Definition earlier_chunk : Chunk :=
  {| chunk_content := "@@ -2,1 +2,2 @@";
     changes := [ AddChange 2 "+import math"; NormalChange 2 3 " import sys" ];
     oldStart := 2; oldLines := 1; newStart := 2; newLines := 2 |}.

Definition context_only : Chunk :=
  {| chunk_content := "@@ -1,2 +1,2 @@";
     changes := [ NormalChange 1 1 " import os"; NormalChange 2 2 " import sys" ];
     oldStart := 1; oldLines := 2; newStart := 1; newLines := 2 |}.

(** A hunk that deletes old line 5; the Context line after it is new
    line 5. *)
Definition deleting_chunk : Chunk :=
  {| chunk_content := "@@ -5,2 +5,1 @@";
     changes := [ DeleteChange 5 "-x = 1"; NormalChange 6 5 " y = 3" ];
     oldStart := 5; oldLines := 2; newStart := 5; newLines := 1 |}.

Definition file (name : string) (hunks : list Chunk) : File :=
  {| chunks := hunks; file_from := Some name; file_to := Some name |}.

Definition b_txt : File := file "b.txt" [chunk].
Definition two_hunks : File := file "b.txt" [earlier_chunk; chunk].
Definition removed : File :=
  {| chunks := [deleting_chunk]; file_from := Some "old.txt"; file_to := Some "/dev/null" |}.
Definition unnamed : File :=
  {| chunks := [chunk]; file_from := None; file_to := None |}.

Definition prDetails : PRDetails :=
  {| owner := "octo"; repo := "calc"; pull_number := 7;
     title := "Add ratio"; description := EmptyString |}.

Definition opened : EventData :=
  {| action := VStr "opened"; repository_owner_login := "octo";
     repository_name := "calc"; event_number := 7;
     before := VUndefined; after := VUndefined |}.

Definition closed : EventData :=
  {| action := VStr "closed"; repository_owner_login := "octo";
     repository_name := "calc"; event_number := 7;
     before := VUndefined; after := VUndefined |}.

(** Model answers.  [one_review] is the text
    [{"reviews": [{"lineNumber": "10", "reviewComment": "Division by zero"}]}],
    [bare_object] is [{"reviews": {"lineNumber": 10, "reviewComment": "Division by zero"}}]:
    valid JSON whose [reviews] is one review instead of an array of them. *)
Definition quoted (s : string) : string := (dq ++ s ++ dq)%string.

Definition one_review : string :=
  ("{" ++ quoted "reviews" ++ ": [{" ++ quoted "lineNumber" ++ ": " ++ quoted "10" ++ ", "
   ++ quoted "reviewComment" ++ ": " ++ quoted "Division by zero" ++ "}]}")%string.

Definition bare_object : string :=
  ("{" ++ quoted "reviews" ++ ": {" ++ quoted "lineNumber" ++ ": 10, "
   ++ quoted "reviewComment" ++ ": " ++ quoted "Division by zero" ++ "}}")%string.

Definition not_json : string := "The change looks fine to me.".

(** [JSON.parse] on the texts above. *)
Definition parse (text : string) : option value :=
  if String.eqb text "{}" then Some (VObj [])
  else if String.eqb text one_review then
    Some (VObj [("reviews",
                 VArr [VObj [("lineNumber", VStr "10");
                             ("reviewComment", VStr "Division by zero")]])])
  else if String.eqb text bare_object then
    Some (VObj [("reviews",
                 VObj [("lineNumber", VNum (Int 10));
                       ("reviewComment", VStr "Division by zero")])])
  else None.

(** [Number] on numbers, booleans, null, undefined and on strings that
    spell a decimal integer; other strings are taken as not numeric. *)
Fixpoint digits (s : string) (acc : Z) : option Z :=
  match s with
  | EmptyString => Some acc
  | String c rest =>
      let d := Z.of_nat (nat_of_ascii c) - 48 in
      if Z.leb 0 d && Z.leb d 9 then digits rest (10 * acc + d) else None
  end.

Definition toNumber (v : value) : number :=
  match v with
  | VUndefined => NaN
  | VNull => Int 0
  | VBool b => Int (if b then 1 else 0)
  | VNum n => n
  | VStr s =>
      match digits (trim s) 0 with
      | Some z => Int z
      | None => NaN
      end
  | VArr _ | VObj _ => NaN
  end.

(** A glob matcher for literal characters and a star that stands for a run
    of characters other than a slash; the empty pattern matches the empty
    path only. *)
Fixpoint glob (pattern path : list ascii) {struct pattern} : bool :=
  match pattern with
  | [] => match path with [] => true | _ :: _ => false end
  | p :: pattern' =>
      if Ascii.eqb p "*"%char then
        (fix star (path : list ascii) : bool :=
           glob pattern' path ||
           match path with
           | c :: path' => if Ascii.eqb c "/"%char then false else star path'
           | [] => false
           end) path
      else
        match path with
        | c :: path' => Ascii.eqb p c && glob pattern' path'
        | [] => false
        end
  end.

Definition matches (path pattern : string) : bool :=
  glob (list_ascii_of_string pattern) (list_ascii_of_string path).

(** An environment: the [exclude] input, the configured model, the parsed
    diff and the model's answers vary; the host always answers. *)
Definition environment (exclude configured_model : string) (files : list File)
    (answers : nat -> option (list (option string))) : Environment :=
  {| getInput := fun name =>
       if String.eqb name "exclude" then exclude
       else if String.eqb name "OPENAI_API_MODEL" then configured_model
       else "secret";
     GITHUB_EVENT_NAME := "pull_request";
     Number := toNumber;
     JSON_parse := parse;
     minimatch := matches;
     parseDiff := fun _ => files;
     pulls_get := fun _ _ _ => Some (Some "Add ratio", None);
     pulls_get_diff := fun _ _ _ => Some (Some "diff --git a/b.txt b/b.txt");
     repos_compareCommits := fun _ _ _ _ => Some "diff --git a/b.txt b/b.txt";
     repos_getContent := fun _ _ _ _ => Some None;
     pulls_createReview := fun _ _ _ _ => Some tt;
     chat_completions_create := fun n _ => answers n |}.

(** The model answers every request with [text]. *)
Definition always (text : string) : nat -> option (list (option string)) :=
  fun _ => Some [Some text].

(** The first answer is [text], every later one is one valid review. *)
Definition first_then_review (text : string) : nat -> option (list (option string)) :=
  fun n => match n with
           | O => Some [Some text]
           | S _ => Some [Some one_review]
           end.

Definition accepting : Environment :=
  environment EmptyString "gpt-4" [b_txt] (always one_review).

Definition misshapen : Environment :=
  environment EmptyString "gpt-4" [two_hunks] (first_then_review bare_object).

Definition unparsable : Environment :=
  environment EmptyString "gpt-4" [two_hunks] (first_then_review not_json).

(** The first request is rejected. *)
Definition failing_provider : Environment :=
  environment EmptyString "gpt-4" [two_hunks]
    (fun n => match n with
              | O => None
              | S _ => Some [Some one_review]
              end).

Definition with_removed : Environment :=
  environment EmptyString "gpt-4" [removed; b_txt] (always one_review).


End Sample.

(* ================================================================= *)
(** ** Notions for whole runs *)

(** The values a property read throws on. *)
Definition nullish_value (v : value) : bool :=
  match v with
  | VUndefined | VNull => true
  | VBool _ | VNum _ | VStr _ | VArr _ | VObj _ => false
  end.

(** The text [getAIResponse] hands to [JSON.parse] for the first choice of
    an answer: its trimmed content, or the text of an empty object when the
    content is missing or blank. *)
Definition parsed_text (first : option string) : string :=
  match first with
  | Some text => if String.eqb (trim text) EmptyString then "{}" else trim text
  | None => "{}"
  end.

(** The entries the callback of [createComment] throws on, once the file
    has a destination path: null, on the read of [lineNumber], and an
    entry whose [lineNumber] cannot be converted to a number. *)
Definition unreadable (item : value) : bool :=
  nullish_value item || Number_throws (read item "lineNumber").

(** [file.to] is truthy: a destination path that is not the empty string. *)
Definition has_destination (file : File) : bool :=
  match file_to file with
  | Some to => negb (String.eqb to EmptyString)
  | None => false
  end.

(** The comment [createComment] builds for an entry it accepts. *)
Definition comment_for {env : Environment} (to : string) (aiResponse : value)
  : ReviewComment :=
  {| body := read aiResponse "reviewComment";
     path := to;
     line := Number (read aiResponse "lineNumber") |}.

(** The line numbers of the Addition and Deletion changes, in diff order,
    before they are put in a set. *)
Definition resolved (chunk : Chunk) : list Z :=
  defined (map getLineNumber (filter isAddOrDel (changes chunk))).

(** The file content [analyzeCode] passes to [createPrompt] for a file:
    what the host answers for its destination path at the head of the pull
    request, none when the fetch fails, carries no text or is empty. *)
Definition context_for {env : Environment} (prDetails : PRDetails) (file : File)
  : option string :=
  match repos_getContent (owner prDetails) (repo prDetails) (file_to file)
          ("pull/" ++ string_of_Z (pull_number prDetails) ++ "/head")%string with
  | Some (Some text) => if String.eqb text EmptyString then None else Some text
  | Some None | None => None
  end.

(** One request per chunk of each file that is not deleted, in diff order. *)
Definition requests_for {env : Environment} (prDetails : PRDetails) (files : list File)
  : list Request :=
  flat_map (fun file =>
              map (fun chunk =>
                     chat_request (createPrompt file chunk prDetails
                                     (context_for prDetails file)))
                  (chunks file))
           (filter (fun f => negb (deleted f)) files).

(** The comment sits on the destination path of a file of the list that is
    not deleted, at a line that is eligible for one of that file's chunks. *)
Definition anchored (files : list File) (c : ReviewComment) : Prop :=
  exists file chunk,
    In file files /\ deleted file = false
    /\ file_to file = Some (path c) /\ path c <> EmptyString
    /\ In chunk (chunks file) /\ eligible chunk (line c).

(** The string of the given bytes. *)
Definition utf8 (bytes : list nat) : string :=
  string_of_list_ascii (map ascii_of_nat bytes).

(** What is left of a string after the white space it starts with, when it
    starts with one. *)
Definition after_space (s : string) : option string :=
  match s with
  | EmptyString => None
  | String a rest =>
      if is_space a then Some rest
      else
        match rest with
        | EmptyString => None
        | String b rest1 =>
            if two_byte_space a b then Some rest1
            else
              match rest1 with
              | EmptyString => None
              | String c rest2 => if three_byte_space a b c then Some rest2 else None
              end
        end
  end.

Definition has_comma (s : string) : bool :=
  existsb (Ascii.eqb ","%char) (list_ascii_of_string s).

Fixpoint commas (s : string) : nat :=
  match s with
  | EmptyString => O
  | String c rest => if Ascii.eqb c ","%char then S (commas rest) else commas rest
  end.

Definition content_fetches (events : list Event) : list (option string) :=
  flat_map (fun e => match e with
                     | E_getContent _ _ path _ => [path]
                     | _ => []
                     end) events.

Definition diff_fetches (events : list Event) : list Event :=
  filter (fun e => match e with
                   | E_pulls_get_diff _ _ _ | E_compareCommits _ _ _ _ => true
                   | _ => false
                   end) events.

(** The details [getPRDetails] returns when the metadata fetch answers. *)
Definition details_of (eventData : EventData)
    (prResponse : option string * option string) : PRDetails :=
  {| owner := repository_owner_login eventData;
     repo := repository_name eventData;
     pull_number := event_number eventData;
     title := nullish (fst prResponse) EmptyString;
     description := nullish (snd prResponse) EmptyString |}.

(** Environments whose host misbehaves. *)
Module Cases.

Definition environment (metadata : option (option string * option string))
    (diff : option (option string)) (posted : option unit) (files : list File)
    (answers : nat -> option (list (option string))) : Environment :=
  {| getInput := fun name =>
       if String.eqb name "exclude" then "*.md, docs/*" else "secret";
     GITHUB_EVENT_NAME := "pull_request";
     Number := Sample.toNumber;
     JSON_parse := Sample.parse;
     minimatch := Sample.matches;
     parseDiff := fun _ => files;
     pulls_get := fun _ _ _ => metadata;
     pulls_get_diff := fun _ _ _ => diff;
     repos_compareCommits := fun _ _ _ _ => Some EmptyString;
     repos_getContent := fun _ _ _ _ => None;
     pulls_createReview := fun _ _ _ _ => posted;
     chat_completions_create := fun n _ => answers n |}.

Definition answering : option (option string * option string) :=
  Some (Some "Add ratio", None).

Definition no_metadata : Environment :=
  environment None (Some (Some "diff --git a/b.txt b/b.txt")) (Some tt)
    [Sample.b_txt] (Sample.always Sample.one_review).

Definition no_diff : Environment :=
  environment answering None (Some tt) [Sample.b_txt] (Sample.always Sample.one_review).

Definition empty_diff : Environment :=
  environment answering (Some (Some EmptyString)) (Some tt)
    [Sample.b_txt] (Sample.always Sample.one_review).

Definition review_refused : Environment :=
  environment answering (Some (Some "diff --git a/b.txt b/b.txt")) None
    [Sample.b_txt] (Sample.always Sample.one_review).

Definition empty_answers : Environment :=
  environment answering (Some (Some "diff --git a/b.txt b/b.txt")) (Some tt)
    [Sample.two_hunks] (fun _ => Some [Some "  "]).

Definition null_entry : value := VArr [VNull].

Definition synchronize : EventData :=
  {| action := VStr "synchronize"; repository_owner_login := "octo";
     repository_name := "calc"; event_number := 7;
     before := VStr "1111111"; after := VStr "2222222" |}.

End Cases.

(* ================================================================= *)
(** ** Sets of line numbers *)

Section LineSets.

Lemma existsb_eqb_In (x : Z) (s : list Z) : existsb (Z.eqb x) s = true <-> In x s.
Proof.
  rewrite existsb_exists; split.
  - intros [y [Hy Heq]]. apply Z.eqb_eq in Heq. now subst.
  - intros Hx. exists x. split; [assumption | apply Z.eqb_refl].
Qed.

Lemma Set_add_In (s : list Z) (x y : Z) : In y (Set_add s x) <-> In y s \/ y = x.
Proof.
  unfold Set_add. destruct (existsb (Z.eqb x) s) eqn:Hmem.
  - apply existsb_eqb_In in Hmem. split; [now left | intros [H | ->]; assumption].
  - rewrite in_app_iff. simpl. intuition.
Qed.

Lemma Set_add_NoDup (s : list Z) (x : Z) : NoDup s -> NoDup (Set_add s x).
Proof.
  intros Hs. unfold Set_add. destruct (existsb (Z.eqb x) s) eqn:Hmem; [assumption |].
  assert (Hnot : ~ In x s).
  { intros Hx. apply existsb_eqb_In in Hx. congruence. }
  clear Hmem. induction Hs as [| y s Hy Hs IH]; simpl.
  - constructor; [intros [] | constructor].
  - constructor.
    + rewrite in_app_iff. simpl. intros [H | [H | []]]; [now apply Hy |].
      subst. apply Hnot. now left.
    + apply IH. intros H. apply Hnot. now right.
Qed.

Lemma fold_Set_add_In (xs acc : list Z) (y : Z) :
  In y (fold_left Set_add xs acc) <-> In y acc \/ In y xs.
Proof.
  revert acc. induction xs as [| x xs IH]; intros acc; simpl.
  - intuition.
  - rewrite IH, Set_add_In. intuition.
Qed.

Lemma fold_Set_add_NoDup (xs acc : list Z) : NoDup acc -> NoDup (fold_left Set_add xs acc).
Proof.
  revert acc. induction xs as [| x xs IH]; intros acc Hacc; simpl.
  - assumption.
  - apply IH. now apply Set_add_NoDup.
Qed.

Lemma Set_new_In (xs : list Z) (y : Z) : In y (Set_new xs) <-> In y xs.
Proof. unfold Set_new. rewrite fold_Set_add_In. simpl. intuition. Qed.

Lemma Set_new_NoDup (xs : list Z) : NoDup (Set_new xs).
Proof. apply fold_Set_add_NoDup. constructor. Qed.

Lemma Set_has_In (s : list Z) (n : number) :
  Set_has s n = true <-> exists z, n = Int z /\ In z s.
Proof.
  destruct n as [z | |]; simpl.
  - rewrite existsb_eqb_In. split.
    + intros Hz. now exists z.
    + intros [z' [Heq Hz]]. now injection Heq as ->.
  - split; [discriminate | intros [z [Heq _]]; discriminate].
  - split; [discriminate | intros [z [Heq _]]; discriminate].
Qed.

Lemma defined_In (lns : list (option Z)) (n : Z) : In n (defined lns) <-> In (Some n) lns.
Proof.
  induction lns as [| [m |] lns IH]; simpl.
  - reflexivity.
  - rewrite IH. split; intros [H | H]; auto; left; congruence.
  - rewrite IH. split; [now right | intros [H | H]; [discriminate | assumption]].
Qed.

Lemma validLines_In (chunk : Chunk) (n : Z) :
  In n (validLines chunk) <->
  exists change, In change (changes chunk) /\ isAddOrDel change = true
                 /\ getLineNumber change = Some n.
Proof.
  unfold validLines. rewrite Set_new_In, defined_In, in_map_iff. split.
  - intros [change [Hline Hin]]. apply filter_In in Hin. destruct Hin as [Hin Hkind].
    now exists change.
  - intros [change [Hin [Hkind Hline]]]. exists change. split; [assumption |].
    apply filter_In. now split.
Qed.

Lemma Set_has_eligible (chunk : Chunk) (n : number) :
  Set_has (validLines chunk) n = true <-> eligible chunk n.
Proof.
  rewrite Set_has_In. unfold eligible. split.
  - intros (z & -> & Hz). apply validLines_In in Hz. destruct Hz as (change & H).
    now exists z, change.
  - intros (z & change & -> & H). exists z. split; [reflexivity |].
    apply validLines_In. now exists change.
Qed.

Lemma filter_changed_without_context (cs : list Change) :
  filter isAddOrDel (filter (fun c => negb (is_normal c)) cs) = filter isAddOrDel cs.
Proof.
  induction cs as [| c cs IH]; simpl; [reflexivity |].
  destruct c; simpl; now rewrite IH.
Qed.

End LineSets.

(* ================================================================= *)
(** ** The line resolver and the eligible set *)

(** C4.  The line resolver returns the new-file line number of a Context
    change, the new-file line number of an Addition and the old-file line
    number of a Deletion; for an Addition or a Deletion whose counters are
    the non-negative ones of a parsed diff, the result is defined and
    non-negative, so the undefined fallback is not reached. *)
Theorem getLineNumber_resolves (change : Change) :
  well_formed change ->
  match change with
  | NormalChange _ new _ => getLineNumber change = Some new
  | AddChange new _ => getLineNumber change = Some new
  | DeleteChange old _ => getLineNumber change = Some old
  end
  /\ getLineNumber change <> None
  /\ (isAddOrDel change = true ->
      exists n, getLineNumber change = Some n /\ 0 <= n).
Proof.
  intros Hwf. destruct change as [old new text | new text | old text];
    cbn in *; (split; [reflexivity | split; [discriminate |]]).
  - discriminate.
  - intros _. now exists new.
  - intros _. now exists old.
Qed.

Lemma getLineNumber_resolves_witness :
  well_formed (DeleteChange 9 "-    return a")
  /\ getLineNumber (DeleteChange 9 "-    return a") = Some 9
  /\ exists n, getLineNumber (DeleteChange 9 "-    return a") = Some n /\ 0 <= n.
Proof.
  assert (Hwf : well_formed (DeleteChange 9 "-    return a")) by (simpl; lia).
  destruct (getLineNumber_resolves (DeleteChange 9 "-    return a") Hwf)
    as (Hline & _ & Hdefined).
  split; [exact Hwf |]. split; [exact Hline |]. now apply Hdefined.
Defined.

(** C5.  The set of line numbers [createPrompt] enumerates is the set
    [createComment] validates against; a number is in it exactly when it is
    the resolved line number of an Addition or Deletion change of the chunk;
    it lists no number twice; and Context changes add nothing to it: the
    chunk stripped of its Context changes has the same set, and a chunk of
    Context changes only has the empty set. *)
Theorem changedLines_exact (chunk : Chunk) :
  changedLines chunk = validLines chunk
  /\ (forall n,
        In n (changedLines chunk) <->
        exists change, In change (changes chunk)
                       /\ (exists l text, change = AddChange l text \/ change = DeleteChange l text)
                       /\ getLineNumber change = Some n)
  /\ NoDup (changedLines chunk)
  /\ changedLines (without_context chunk) = changedLines chunk
  /\ (forallb is_normal (changes chunk) = true -> changedLines chunk = []).
Proof.
  split; [reflexivity |]. split; [| split; [| split]].
  - intros n. change (changedLines chunk) with (validLines chunk).
    rewrite validLines_In. split.
    + intros [change [Hin [Hkind Hline]]]. exists change. split; [assumption |].
      split; [| assumption].
      destruct change as [old new text | l text | l text]; [discriminate | |];
        exists l, text; auto.
    + intros [change [Hin [[l [text [-> | ->]]] Hline]]];
        eexists; (split; [eassumption |]); split; auto.
  - apply Set_new_NoDup.
  - unfold changedLines, without_context. simpl.
    now rewrite filter_changed_without_context.
  - intros Hall. unfold changedLines.
    replace (filter isAddOrDel (changes chunk)) with (@nil Change); [reflexivity |].
    induction (changes chunk) as [| c cs IH]; [reflexivity |].
    simpl in Hall. apply andb_prop in Hall. destruct Hall as [Hc Hcs].
    destruct c; try discriminate. simpl. now apply IH.
Qed.

(* ================================================================= *)
(** ** createComment *)

Section CreateComment.
Context {env : Environment}.

Lemma flatMap_items_app {B} (callback : value -> result (list B)) (xs ys : list value) :
  flatMap_items callback (xs ++ ys) =
  result_bind (flatMap_items callback xs) (fun a =>
  result_bind (flatMap_items callback ys) (fun b => Ok (a ++ b))).
Proof.
  induction xs as [| x xs IH]; simpl.
  - destruct (flatMap_items callback ys); reflexivity.
  - destruct (callback x) as [here | e]; simpl; [| reflexivity].
    rewrite IH. destruct (flatMap_items callback xs) as [a | e]; simpl; [| reflexivity].
    destruct (flatMap_items callback ys) as [b | e]; simpl; [| reflexivity].
    now rewrite app_assoc.
Qed.

(** What the callback can return: nothing, or one comment on the
    destination path for the converted line number, which is then valid. *)
Lemma comment_of_cases (file : File) (chunk : Chunk) (aiResponse : value)
    (comments : list ReviewComment) :
  comment_of file chunk aiResponse = Ok comments ->
  (comments = [] /\
   (names_valid_line chunk aiResponse = false \/ file_to file = None
    \/ file_to file = Some EmptyString))
  \/ (exists to, file_to file = Some to /\ to <> EmptyString
                 /\ names_valid_line chunk aiResponse = true
                 /\ comments = [ {| body := read aiResponse "reviewComment";
                                    path := to;
                                    line := Number (read aiResponse "lineNumber") |} ]).
Proof.
  unfold comment_of, names_valid_line, read.
  destruct (file_to file) as [to |]; [| intros [= <-]; left; auto].
  destruct (String.eqb to EmptyString) eqn:Hto.
  - apply String.eqb_eq in Hto. subst. intros [= <-]. left; auto.
  - apply String.eqb_neq in Hto.
    destruct aiResponse; simpl; try discriminate; unfold to_number; simpl;
      try match goal with
          | |- context [Number_throws ?v] => destruct (Number_throws v)
          end; simpl; try discriminate;
      match goal with
      | |- context [Set_has ?s ?n] => destruct (Set_has s n) eqn:Hhas
      end; simpl; intros [= <-]; try (left; split; [reflexivity | now left]);
      right; exists to; auto.
Qed.

Lemma comment_of_eligible (file : File) (chunk : Chunk) (aiResponse : value)
    (comments : list ReviewComment) :
  comment_of file chunk aiResponse = Ok comments ->
  Forall (fun c => eligible chunk (line c)) comments.
Proof.
  intros H. apply comment_of_cases in H.
  destruct H as [[-> _] | [to [_ [_ [Hvalid ->]]]]]; constructor; [| constructor].
  simpl. now apply Set_has_eligible.
Qed.

Lemma comment_of_invalid (file : File) (chunk : Chunk) (aiResponse : value)
    (comments : list ReviewComment) :
  comment_of file chunk aiResponse = Ok comments ->
  names_valid_line chunk aiResponse = false ->
  comments = [].
Proof.
  intros H Hinvalid. apply comment_of_cases in H.
  destruct H as [[-> _] | [to [_ [_ [Hvalid _]]]]]; [reflexivity | congruence].
Qed.

Lemma flatMap_items_eligible (file : File) (chunk : Chunk) (items : list value)
    (comments : list ReviewComment) :
  flatMap_items (comment_of file chunk) items = Ok comments ->
  Forall (fun c => eligible chunk (line c)) comments.
Proof.
  revert comments. induction items as [| item items IH]; simpl; intros comments.
  - intros [= <-]. constructor.
  - destruct (comment_of file chunk item) as [here | e] eqn:Hhere; simpl; [| discriminate].
    destruct (flatMap_items (comment_of file chunk) items) as [there | e];
      simpl; [| discriminate].
    intros [= <-]. apply Forall_app. split.
    + eapply comment_of_eligible; eassumption.
    + now apply IH.
Qed.

Lemma flatMap_items_valid_only (file : File) (chunk : Chunk) (items : list value)
    (comments : list ReviewComment) :
  flatMap_items (comment_of file chunk) items = Ok comments ->
  flatMap_items (comment_of file chunk) (filter (names_valid_line chunk) items) = Ok comments.
Proof.
  revert comments. induction items as [| item items IH]; simpl; intros comments.
  - trivial.
  - destruct (comment_of file chunk item) as [here | e] eqn:Hhere; simpl; [| discriminate].
    destruct (flatMap_items (comment_of file chunk) items) as [there | e];
      simpl; [| discriminate].
    intros [= <-]. specialize (IH there eq_refl).
    destruct (names_valid_line chunk item) eqn:Hvalid; simpl.
    + now rewrite Hhere, IH.
    + rewrite (comment_of_invalid _ _ _ Hhere Hvalid). exact IH.
Qed.

(** An entry of the declared shape never makes the callback throw. *)
Lemma comment_of_entry (file : File) (chunk : Chunk) (r : AIResponse) :
  exists comments, comment_of file chunk (entry r) = Ok comments.
Proof.
  unfold comment_of. destruct (file_to file) as [to |]; [| now eexists].
  destruct (String.eqb to EmptyString); [now eexists |].
  simpl. destruct (Set_has _ _); simpl; now eexists.
Qed.

Lemma flatMap_items_entries (file : File) (chunk : Chunk) (responses : list AIResponse) :
  exists comments,
    flatMap_items (comment_of file chunk) (map entry responses) = Ok comments.
Proof.
  induction responses as [| r responses [there IH]]; simpl; [now eexists |].
  destruct (comment_of_entry file chunk r) as [here Hhere].
  rewrite Hhere, IH. simpl. now eexists.
Qed.

Lemma comment_of_valid_entry (file : File) (chunk : Chunk) (r : AIResponse) (to : string) :
  file_to file = Some to -> to <> EmptyString ->
  names_valid_line chunk (entry r) = true ->
  comment_of file chunk (entry r)
  = Ok [ {| body := VStr (reviewComment r); path := to;
            line := Number (VStr (lineNumber r)) |} ].
Proof.
  intros Hto Hne Hvalid. unfold comment_of. rewrite Hto.
  apply String.eqb_neq in Hne. rewrite Hne.
  unfold names_valid_line, read in Hvalid. cbn in Hvalid |- *.
  now rewrite Hvalid.
Qed.

End CreateComment.

(** C9.  [createComment] maps the concatenation of two response lists to
    the concatenation of their comments: as an equation of outcomes for any
    two lists of values, and as an equation of comment lists for responses
    of the declared shape, on which it always returns.  Each comment comes
    from its own entry alone, so an entry for a valid line repeated [n]
    times yields [n] equal comments. *)
Theorem createComment_app {env : Environment} (file : File) (chunk : Chunk) :
  (forall xs ys : list value,
      createComment file chunk (VArr (xs ++ ys)) =
      result_bind (createComment file chunk (VArr xs)) (fun a =>
      result_bind (createComment file chunk (VArr ys)) (fun b => Ok (a ++ b))))
  /\ (forall xs ys : list AIResponse,
        exists cx cy,
          createComment file chunk (VArr (map entry xs)) = Ok cx
          /\ createComment file chunk (VArr (map entry ys)) = Ok cy
          /\ createComment file chunk (VArr (map entry (xs ++ ys))) = Ok (cx ++ cy))
  /\ (forall (r : AIResponse) (to : string) (n : nat),
        file_to file = Some to -> to <> EmptyString ->
        names_valid_line chunk (entry r) = true ->
        createComment file chunk (VArr (repeat (entry r) n))
        = Ok (repeat {| body := VStr (reviewComment r); path := to;
                        line := Number (VStr (lineNumber r)) |} n)).
Proof.
  split; [| split].
  - intros xs ys. apply flatMap_items_app.
  - intros xs ys.
    destruct (flatMap_items_entries file chunk xs) as [cx Hx].
    destruct (flatMap_items_entries file chunk ys) as [cy Hy].
    exists cx, cy. unfold createComment, flatMap.
    rewrite map_app, flatMap_items_app, Hx, Hy. auto.
  - intros r to n Hto Hne Hvalid. unfold createComment, flatMap.
    induction n as [| n IH]; simpl; [reflexivity |].
    rewrite (comment_of_valid_entry _ _ _ Hto Hne Hvalid), IH. reflexivity.
Qed.

(** C1.  On responses of the declared shape [createComment] always returns,
    whatever their line-number strings; and whenever it returns, on any
    value, every comment's line is a member of the chunk's valid set, and
    the comments are those of the entries that name a valid line: the other
    entries contribute nothing. *)
Theorem createComment_within_eligible {env : Environment} (file : File) (chunk : Chunk) :
  (forall responses : list AIResponse,
      exists comments,
        createComment file chunk (VArr (map entry responses)) = Ok comments)
  /\ (forall (aiResponses : value) (comments : list ReviewComment),
        createComment file chunk aiResponses = Ok comments ->
        Forall (fun c => eligible chunk (line c)) comments
        /\ exists items,
             aiResponses = VArr items
             /\ createComment file chunk (VArr (filter (names_valid_line chunk) items))
                = Ok comments).
Proof.
  split.
  - intros responses. apply flatMap_items_entries.
  - intros aiResponses comments. unfold createComment, flatMap.
    destruct aiResponses as [| | b | n | s | items | fields]; try discriminate.
    intros H. split.
    + eapply flatMap_items_eligible; eassumption.
    + exists items. split; [reflexivity |]. now apply flatMap_items_valid_only.
Qed.

(* ================================================================= *)
(** ** Runs of the review loop *)

Section Runs.
Context {env : Environment}.

(** Closes the description of a run once its outcome is known: the
    counter, the new events, and which of the logs it left. *)
Ltac close_run :=
  cbn;
  split; [reflexivity |];
  split; [try rewrite <- app_assoc; reflexivity |];
  first [ left; reflexivity
        | right; split; reflexivity
        | right; reflexivity ].

(** One step of each loop, as an equation on outcomes. *)
Lemma analyzeChunks_cons (file : File) (prDetails : PRDetails)
    (fullFileContent : option string) (chunk : Chunk) (rest : list Chunk)
    (comments : list ReviewComment) (s : State) :
  analyzeChunks file prDetails fullFileContent (chunk :: rest) comments s =
  match getAIResponse (createPrompt file chunk prDetails fullFileContent) s with
  | (Ok aiResponse, s1) =>
      if truthy aiResponse then
        match createComment file chunk aiResponse with
        | Ok newComments =>
            analyzeChunks file prDetails fullFileContent rest (comments ++ newComments) s1
        | Throw e => (Throw e, s1)
        end
      else analyzeChunks file prDetails fullFileContent rest comments s1
  | (Throw e, s1) => (Throw e, s1)
  end.
Proof.
  cbn [analyzeChunks]. unfold bind at 1.
  destruct (getAIResponse _ s) as [[aiResponse | e] s1]; [| reflexivity].
  unfold bind at 1. destruct (truthy aiResponse); [| reflexivity].
  unfold bind, lift, ret. destruct (createComment file chunk aiResponse); reflexivity.
Qed.

Lemma analyzeFiles_cons (prDetails : PRDetails) (file : File) (rest : list File)
    (comments : list ReviewComment) (s : State) :
  analyzeFiles prDetails (file :: rest) comments s =
  if deleted file then analyzeFiles prDetails rest comments s
  else
    match getFileContent (owner prDetails) (repo prDetails) (file_to file)
            ("pull/" ++ string_of_Z (pull_number prDetails) ++ "/head")%string s with
    | (Ok fullFileContent, s1) =>
        match analyzeChunks file prDetails
                (match fullFileContent with
                 | Some text => if String.eqb text EmptyString then None else Some text
                 | None => None
                 end) (chunks file) comments s1 with
        | (Ok comments', s2) => analyzeFiles prDetails rest comments' s2
        | (Throw e, s2) => (Throw e, s2)
        end
    | (Throw e, s1) => (Throw e, s1)
    end.
Proof.
  cbn [analyzeFiles]. fold (deleted file). destruct (deleted file); [reflexivity |].
  unfold bind at 1. destruct (getFileContent _ _ _ _ s) as [[c | e] s1]; [| reflexivity].
  unfold bind at 1. destruct (analyzeChunks _ _ _ _ _ s1) as [[cs | e] s2]; reflexivity.
Qed.

(** [getAIResponse] returns, whatever the provider and the parser do: it
    issues one request and, when something was thrown on the way, logs it
    and answers null. *)
Lemma getAIResponse_run (prompt : string) (s : State) :
  exists aiResponse s1 logs,
    getAIResponse prompt s = (Ok aiResponse, s1)
    /\ requests s1 = S (requests s)
    /\ trace s1 = trace s ++ E_chat (chat_request prompt) :: logs
    /\ (logs = [] \/ (logs = [E_console_error "Error:"] /\ aiResponse = VNull)).
Proof.
  unfold getAIResponse, try_catch, bind, next_request, await, emit, lift, ret, throw.
  cbn [requests trace].
  destruct (chat_completions_create (requests s) (chat_request prompt))
    as [[| choice rest] |]; cbn.
  - do 3 eexists. split; [reflexivity |]. close_run.
  - match goal with
    | |- context [JSON_parse ?res] => destruct (JSON_parse res) as [parsed |]
    end; cbn.
    + destruct (get parsed "reviews") as [reviews | e]; cbn;
        do 3 eexists; (split; [reflexivity |]); close_run.
    + do 3 eexists. split; [reflexivity |]. close_run.
  - do 3 eexists. split; [reflexivity |]. close_run.
Qed.

(** The recovered failures: a rejected request, an answer with no choice,
    and a text that is not JSON all come back as null. *)
Lemma getAIResponse_recovers (prompt : string) (s : State) :
  let answer := chat_completions_create (requests s) (chat_request prompt) in
  answer = None
  \/ answer = Some []
  \/ (exists text rest, answer = Some (Some text :: rest)
                        /\ trim text <> EmptyString /\ JSON_parse (trim text) = None) ->
  fst (getAIResponse prompt s) = Ok VNull.
Proof.
  intros answer Hanswer. subst answer.
  unfold getAIResponse, try_catch, bind, next_request, await, emit, lift, ret, throw.
  cbn [requests trace].
  destruct Hanswer as [H | [H | [text [rest [H [Hne Hparse]]]]]]; rewrite H; cbn.
  - reflexivity.
  - reflexivity.
  - apply String.eqb_neq in Hne. rewrite Hne, Hparse. reflexivity.
Qed.

(** A falsy answer adds no comment, and the loop goes on with the next
    chunk. *)
Lemma analyzeChunks_skips_falsy (file : File) (prDetails : PRDetails)
    (fullFileContent : option string) (chunk : Chunk) (rest : list Chunk)
    (comments : list ReviewComment) (s : State) (aiResponse : value) :
  fst (getAIResponse (createPrompt file chunk prDetails fullFileContent) s) = Ok aiResponse ->
  truthy aiResponse = false ->
  analyzeChunks file prDetails fullFileContent (chunk :: rest) comments s
  = analyzeChunks file prDetails fullFileContent rest comments
      (snd (getAIResponse (createPrompt file chunk prDetails fullFileContent) s)).
Proof.
  intros Hresponse Hfalsy. rewrite analyzeChunks_cons.
  destruct (getAIResponse _ s) as [[v | e] s1]; cbn in *; [| discriminate].
  injection Hresponse as ->. now rewrite Hfalsy.
Qed.

Lemma getFileContent_run (owner repo : string) (path : option string) (ref : string)
    (s : State) :
  exists fullFileContent s1 logs,
    getFileContent owner repo path ref s = (Ok fullFileContent, s1)
    /\ requests s1 = requests s
    /\ trace s1 = trace s ++ E_getContent owner repo path ref :: logs
    /\ (logs = [] \/ logs = [E_console_error "Error fetching file content"]).
Proof.
  unfold getFileContent, try_catch, bind, await, emit, ret, throw.
  destruct (repos_getContent owner repo path ref); cbn;
    do 3 eexists; (split; [reflexivity |]); close_run.
Qed.

(** The comments of one chunk carry the file's destination path. *)
Lemma createComment_path (file : File) (chunk : Chunk) (aiResponses : value)
    (comments : list ReviewComment) :
  createComment file chunk aiResponses = Ok comments ->
  Forall (fun c => file_to file = Some (path c)) comments.
Proof.
  unfold createComment, flatMap. destruct aiResponses; try discriminate.
  revert comments. induction items as [| item items IH]; cbn; intros comments.
  - intros [= <-]. constructor.
  - destruct (comment_of file chunk item) as [here | e] eqn:Hhere; cbn; [| discriminate].
    destruct (flatMap_items (comment_of file chunk) items) as [there | e];
      cbn; [| discriminate].
    intros [= <-]. apply Forall_app. split; [| now apply IH].
    apply comment_of_cases in Hhere.
    destruct Hhere as [[-> _] | [to [Hto [_ [_ ->]]]]]; repeat constructor. exact Hto.
Qed.

(** The events and the comments of the inner loop belong to the file. *)
Lemma analyzeChunks_run (file : File) (prDetails : PRDetails)
    (fullFileContent : option string) (todo : list Chunk) :
  incl todo (chunks file) ->
  forall (comments : list ReviewComment) (s : State),
  exists new,
    trace (snd (analyzeChunks file prDetails fullFileContent todo comments s))
    = trace s ++ new
    /\ Forall (reviews_file prDetails file) new
    /\ Forall (fun e => is_createReview e = false) new
    /\ forall comments',
        fst (analyzeChunks file prDetails fullFileContent todo comments s) = Ok comments' ->
        exists added, comments' = comments ++ added
                      /\ Forall (fun c => file_to file = Some (path c)) added.
Proof.
  induction todo as [| chunk rest IH]; intros Hincl comments s.
  - exists []. cbn. rewrite app_nil_r. repeat split; try constructor.
    intros comments' [= <-]. exists []. rewrite app_nil_r. split; constructor.
  - rewrite analyzeChunks_cons.
    destruct (getAIResponse_run (createPrompt file chunk prDetails fullFileContent) s)
      as (aiResponse & s1 & logs & Hrun & _ & Htrace & Hlogs).
    rewrite Hrun.
    assert (Hrest : incl rest (chunks file)).
    { intros c Hc. apply Hincl. now right. }
    assert (Hhere : Forall (reviews_file prDetails file)
                           (E_chat (chat_request (createPrompt file chunk prDetails fullFileContent))
                            :: logs)
                    /\ Forall (fun e => is_createReview e = false)
                              (E_chat (chat_request (createPrompt file chunk prDetails fullFileContent))
                               :: logs)).
    { split.
      - constructor.
        + cbn. exists chunk, fullFileContent. split; [apply Hincl; now left | reflexivity].
        + destruct Hlogs as [-> | [-> _]]; repeat constructor.
      - constructor; [reflexivity |].
        destruct Hlogs as [-> | [-> _]]; repeat constructor. }
    destruct Hhere as [Hfile Hnone].
    destruct (truthy aiResponse).
    + destruct (createComment file chunk aiResponse) as [newComments | e] eqn:Hnew.
      * destruct (IH Hrest (comments ++ newComments) s1) as (new & Hnew_trace & Hnew_file & Hnew_none & Hcomments).
        exists ((E_chat (chat_request (createPrompt file chunk prDetails fullFileContent)) :: logs) ++ new).
        split; [rewrite Hnew_trace, Htrace; now rewrite <- app_assoc |].
        split; [apply Forall_app; now split |].
        split; [apply Forall_app; now split |].
        intros comments' Hok. destruct (Hcomments comments' Hok) as (added & -> & Hadded).
        exists (newComments ++ added). split; [now rewrite app_assoc |].
        apply Forall_app. split; [| assumption].
        eapply createComment_path; eassumption.
      * exists (E_chat (chat_request (createPrompt file chunk prDetails fullFileContent)) :: logs).
        cbn. repeat split; try assumption. discriminate.
    + destruct (IH Hrest comments s1) as (new & Hnew_trace & Hnew_file & Hnew_none & Hcomments).
      exists ((E_chat (chat_request (createPrompt file chunk prDetails fullFileContent)) :: logs) ++ new).
      split; [rewrite Hnew_trace, Htrace; now rewrite <- app_assoc |].
      split; [apply Forall_app; now split |].
      split; [apply Forall_app; now split |].
      exact Hcomments.
Qed.

End Runs.

Section Files.
Context {env : Environment}.

(** The events and the comments of the outer loop belong to files of the
    list that are not deleted. *)
Lemma analyzeFiles_run (prDetails : PRDetails) (files : list File) :
  forall (comments : list ReviewComment) (s : State),
  exists new,
    trace (snd (analyzeFiles prDetails files comments s)) = trace s ++ new
    /\ Forall (fun e => exists file, In file files /\ deleted file = false
                                     /\ reviews_file prDetails file e) new
    /\ Forall (fun e => is_createReview e = false) new
    /\ forall comments',
        fst (analyzeFiles prDetails files comments s) = Ok comments' ->
        exists added,
          comments' = comments ++ added
          /\ Forall (fun c => exists file, In file files /\ deleted file = false
                                           /\ file_to file = Some (path c)) added.
Proof.
  induction files as [| file rest IH]; intros comments s.
  - exists []. cbn. rewrite app_nil_r. repeat split; try constructor.
    intros comments' [= <-]. exists []. rewrite app_nil_r. split; constructor.
  - assert (Hweaken : forall (P : File -> Prop) (Q : Event -> File -> Prop) (l : list Event),
               Forall (fun e => exists f, In f rest /\ P f /\ Q e f) l ->
               Forall (fun e => exists f, In f (file :: rest) /\ P f /\ Q e f) l).
    { intros P Q l. apply Forall_impl. intros e (f & Hf & Hrest). exists f.
      split; [now right | assumption]. }
    assert (Hweaken' : forall (P : File -> Prop) (Q : ReviewComment -> File -> Prop)
                              (l : list ReviewComment),
               Forall (fun c => exists f, In f rest /\ P f /\ Q c f) l ->
               Forall (fun c => exists f, In f (file :: rest) /\ P f /\ Q c f) l).
    { intros P Q l. apply Forall_impl. intros c (f & Hf & Hrest). exists f.
      split; [now right | assumption]. }
    rewrite analyzeFiles_cons. destruct (deleted file) eqn:Hdeleted.
    + destruct (IH comments s) as (new & Htrace & Hfiles & Hnone & Hcomments).
      exists new. split; [assumption |].
      split; [exact (Hweaken _ (fun e f => reviews_file prDetails f e) _ Hfiles) |].
      split; [assumption |].
      intros comments' Hok. destruct (Hcomments comments' Hok) as (added & -> & Hadded).
      exists added. split; [reflexivity |].
      exact (Hweaken' _ (fun c f => file_to f = Some (path c)) _ Hadded).
    + destruct (getFileContent_run (owner prDetails) (repo prDetails) (file_to file)
                  ("pull/" ++ string_of_Z (pull_number prDetails) ++ "/head")%string s)
        as (fullFileContent & s1 & logs & Hrun & _ & Htrace1 & Hlogs).
      rewrite Hrun.
      match goal with
      | |- context [analyzeChunks file prDetails ?c (chunks file) comments s1] =>
          destruct (analyzeChunks_run file prDetails c (incl_refl (chunks file)) comments s1)
            as (new2 & Htrace2 & Hfile2 & Hnone2 & Hcomments2);
          destruct (analyzeChunks file prDetails c (chunks file) comments s1)
            as [[comments2 | e] s2]
      end; cbn [fst snd] in *.
      * destruct (IH comments2 s2) as (new3 & Htrace3 & Hfiles3 & Hnone3 & Hcomments3).
        destruct (Hcomments2 comments2 eq_refl) as (added2 & -> & Hadded2).
        exists ((E_getContent (owner prDetails) (repo prDetails) (file_to file)
                   ("pull/" ++ string_of_Z (pull_number prDetails) ++ "/head")%string
                 :: logs) ++ new2 ++ new3).
        split; [rewrite Htrace3, Htrace2, Htrace1; now rewrite <- !app_assoc |].
        split.
        { apply Forall_app. split; [| apply Forall_app; split].
          - constructor.
            + exists file. split; [now left | split; [assumption | reflexivity]].
            + destruct Hlogs as [-> | ->]; repeat constructor.
              exists file. split; [now left | split; [assumption | exact I]].
          - revert Hfile2. apply Forall_impl. intros e He. exists file.
            split; [now left | split; assumption].
          - exact (Hweaken _ (fun e f => reviews_file prDetails f e) _ Hfiles3). }
        split.
        { apply Forall_app. split; [| apply Forall_app; split]; try assumption.
          constructor; [reflexivity |]. destruct Hlogs as [-> | ->]; repeat constructor. }
        intros comments' Hok. destruct (Hcomments3 comments' Hok) as (added3 & -> & Hadded3).
        exists (added2 ++ added3). split; [now rewrite app_assoc |].
        apply Forall_app. split.
        { revert Hadded2. apply Forall_impl. intros c Hc. exists file.
          split; [now left | split; assumption]. }
        exact (Hweaken' _ (fun c f => file_to f = Some (path c)) _ Hadded3).
      * exists ((E_getContent (owner prDetails) (repo prDetails) (file_to file)
                   ("pull/" ++ string_of_Z (pull_number prDetails) ++ "/head")%string
                 :: logs) ++ new2).
        split; [rewrite Htrace2, Htrace1; now rewrite <- !app_assoc |].
        split.
        { apply Forall_app. split.
          - constructor.
            + exists file. split; [now left | split; [assumption | reflexivity]].
            + destruct Hlogs as [-> | ->]; repeat constructor.
              exists file. split; [now left | split; [assumption | exact I]].
          - revert Hfile2. apply Forall_impl. intros e' He. exists file.
            split; [now left | split; assumption]. }
        split.
        { apply Forall_app. split; [| assumption].
          constructor; [reflexivity |]. destruct Hlogs as [-> | ->]; repeat constructor. }
        discriminate.
Qed.

Lemma analyzeFiles_without_deleted (prDetails : PRDetails) (files : list File) :
  forall (comments : list ReviewComment) (s : State),
    analyzeFiles prDetails files comments s
    = analyzeFiles prDetails (filter (fun f => negb (deleted f)) files) comments s.
Proof.
  induction files as [| file rest IH]; intros comments s; [reflexivity |].
  cbn [filter]. destruct (deleted file) eqn:Hdeleted; cbn [negb].
  - rewrite analyzeFiles_cons, Hdeleted. apply IH.
  - rewrite !analyzeFiles_cons, Hdeleted.
    destruct (getFileContent _ _ _ _ s) as [[c | e] s1]; [| reflexivity].
    destruct (analyzeChunks _ _ _ _ _ s1) as [[cs | e] s2]; [apply IH | reflexivity].
Qed.

Lemma filter_all_deleted (files : list File) :
  forallb deleted files = true -> filter (fun f => negb (deleted f)) files = [].
Proof.
  induction files as [| file rest IH]; [reflexivity |].
  cbn. intros Hall. apply andb_prop in Hall. destruct Hall as [Hfile Hrest].
  rewrite Hfile. cbn. now apply IH.
Qed.


Lemma main_unsupported (eventData : EventData) (s : State) :
  is_string (action eventData) "opened" = false ->
  is_string (action eventData) "synchronize" = false ->
  main eventData s =
  match pulls_get (repository_owner_login eventData) (repository_name eventData)
                  (event_number eventData) with
  | Some _ =>
      (Ok tt,
       {| requests := requests s;
          trace := (trace s ++ [E_pulls_get (repository_owner_login eventData)
                                            (repository_name eventData)
                                            (event_number eventData)])
                   ++ [E_console_log ("Unsupported event: " ++ GITHUB_EVENT_NAME)%string] |})
  | None =>
      (Throw RequestError,
       {| requests := requests s;
          trace := trace s ++ [E_pulls_get (repository_owner_login eventData)
                                           (repository_name eventData)
                                           (event_number eventData)] |})
  end.
Proof.
  intros Hopened Hsync.
  unfold main, getPRDetails, bind, await, emit, ret, throw.
  rewrite Hopened, Hsync. destruct (pulls_get _ _ _); reflexivity.
Qed.

End Files.

(* ================================================================= *)
(** ** Deleted and excluded files *)

(** C6.  [analyzeCode] runs exactly as it does on the diff with the
    deleted files taken out: the same outcome, requests and events.  Every
    content fetch and every model request of the run, hence every prompt
    built, is for a file of the diff that is not deleted; no returned
    comment is on the path of a deleted file; and a diff of deleted files
    only does nothing at all. *)
Theorem analyzeCode_skips_deleted {env : Environment} (parsedDiff : list File)
    (prDetails : PRDetails) (s : State) :
  analyzeCode parsedDiff prDetails s
  = analyzeCode (filter (fun f => negb (deleted f)) parsedDiff) prDetails s
  /\ (exists new,
        trace (snd (analyzeCode parsedDiff prDetails s)) = trace s ++ new
        /\ Forall (fun e => exists file, In file parsedDiff /\ deleted file = false
                                         /\ reviews_file prDetails file e) new)
  /\ (forall comments,
        fst (analyzeCode parsedDiff prDetails s) = Ok comments ->
        Forall (fun c => String.eqb (path c) "/dev/null" = false) comments)
  /\ (forallb deleted parsedDiff = true ->
      analyzeCode parsedDiff prDetails s = (Ok [], s)).
Proof.
  unfold analyzeCode. split; [apply analyzeFiles_without_deleted |].
  destruct (analyzeFiles_run prDetails parsedDiff [] s)
    as (new & Htrace & Hfiles & _ & Hcomments).
  split; [now exists new |]. split.
  - intros comments Hok. destruct (Hcomments comments Hok) as (added & -> & Hadded).
    cbn. revert Hadded. apply Forall_impl. intros c (file & _ & Hdeleted & Hto).
    unfold deleted in Hdeleted. now rewrite Hto in Hdeleted.
  - intros Hall. rewrite analyzeFiles_without_deleted.
    now rewrite (filter_all_deleted parsedDiff Hall).
Qed.

Lemma analyzeCode_skips_deleted_witness :
  forallb deleted [Sample.removed] = true
  /\ @analyzeCode Sample.with_removed [Sample.removed] Sample.prDetails start = (Ok [], start)
  /\ @analyzeCode Sample.with_removed [Sample.removed; Sample.b_txt] Sample.prDetails start
     = @analyzeCode Sample.with_removed [Sample.b_txt] Sample.prDetails start.
Proof.
  split; [reflexivity |]. split.
  - apply (proj2 (proj2 (proj2
             (@analyzeCode_skips_deleted Sample.with_removed [Sample.removed]
                Sample.prDetails start)))).
    reflexivity.
  - exact (proj1 (@analyzeCode_skips_deleted Sample.with_removed
                    [Sample.removed; Sample.b_txt] Sample.prDetails start)).
Defined.






(* ================================================================= *)
(** ** Trigger kinds *)

(** C8, amended.  When the action is neither [opened] nor [synchronize],
    the run is the metadata fetch and, once that has answered, one console
    line: no model request is counted, no diff is fetched or parsed, no
    content is fetched and no review is posted.  When the metadata fetch
    answers, [main] returns and the exit status is 0; when it is rejected,
    the rejection leaves [main] and the exit status is 1. *)
Theorem main_unsupported_event_is_noop {env : Environment} (eventData : EventData)
    (s : State) :
  is_string (action eventData) "opened" = false ->
  is_string (action eventData) "synchronize" = false ->
  requests (snd (main eventData s)) = requests s
  /\ (exists logs,
        trace (snd (main eventData s))
        = trace s ++ E_pulls_get (repository_owner_login eventData)
                                 (repository_name eventData) (event_number eventData)
                     :: logs
        /\ Forall (fun e => is_work e = false) logs
        /\ chat_requests logs = [] /\ reviews_posted logs = [])
  /\ (forall answer,
        pulls_get (repository_owner_login eventData) (repository_name eventData)
                  (event_number eventData) = Some answer ->
        fst (main eventData s) = Ok tt /\ exit_code (main eventData s) = 0)
  /\ (pulls_get (repository_owner_login eventData) (repository_name eventData)
                (event_number eventData) = None ->
      fst (main eventData s) = Throw RequestError /\ exit_code (main eventData s) = 1).
Proof.
  intros Hopened Hsync. rewrite (main_unsupported eventData s Hopened Hsync).
  destruct (pulls_get _ _ _) as [answer |]; cbn.
  - split; [reflexivity |]. split; [| split].
    + eexists. split; [rewrite <- app_assoc; reflexivity |].
      repeat constructor.
    + intros _ _. split; reflexivity.
    + discriminate.
  - split; [reflexivity |]. split; [| split].
    + exists []. repeat constructor.
    + discriminate.
    + intros _. split; reflexivity.
Qed.

(** C8 as worded fails: the action is [closed] and the metadata fetch is
    rejected; nothing else happens, and the run ends with an error and
    exit status 1. *)
Lemma unsupported_event_fails_without_metadata :
  is_string (action Sample.closed) "opened" = false
  /\ is_string (action Sample.closed) "synchronize" = false
  /\ @main Cases.no_metadata Sample.closed start
     = (Throw RequestError,
        {| requests := 0; trace := [E_pulls_get "octo" "calc" 7] |})
  /\ exit_code (@main Cases.no_metadata Sample.closed start) = 1.
Proof. repeat split. Qed.

Lemma main_unsupported_event_is_noop_witness :
  is_string (action Sample.closed) "opened" = false
  /\ is_string (action Sample.closed) "synchronize" = false
  /\ fst (@main Sample.accepting Sample.closed start) = Ok tt
  /\ exit_code (@main Sample.accepting Sample.closed start) = 0.
Proof.
  split; [reflexivity |]. split; [reflexivity |].
  apply (proj1 (proj2 (proj2 (@main_unsupported_event_is_noop Sample.accepting
                                Sample.closed start eq_refl eq_refl)))
           (Some "Add ratio", None)).
  reflexivity.
Defined.

(* ================================================================= *)
(** ** The model request and its answers *)

Section Answers.
Context {env : Environment}.

(** The request carries the model and sampling values of [queryConfig] and
    the JSON response format, whatever the inputs are. *)
Lemma chat_request_fixed (prompt : string) :
  model (chat_request prompt) = "gpt-4o-2024-11-20"
  /\ temperature (chat_request prompt) = (1 # 10)%Q
  /\ max_tokens (chat_request prompt) = 1000
  /\ top_p (chat_request prompt) = 1
  /\ frequency_penalty (chat_request prompt) = (1 # 10)%Q
  /\ presence_penalty (chat_request prompt) = (1 # 10)%Q
  /\ response_format (chat_request prompt) = "json_object".
Proof. repeat split. Qed.

(** Every model request of a review is such a request. *)
Lemma analyzeCode_requests_fixed (parsedDiff : list File) (prDetails : PRDetails)
    (s : State) :
  exists new,
    trace (snd (analyzeCode parsedDiff prDetails s)) = trace s ++ new
    /\ Forall (fun request => exists prompt, request = chat_request prompt)
              (chat_requests new).
Proof.
  unfold analyzeCode.
  destruct (analyzeFiles_run prDetails parsedDiff [] s) as (new & Htrace & Hfiles & _).
  exists new. split; [assumption |]. clear Htrace.
  induction Hfiles as [| e new (file & _ & _ & He) _ IH]; [constructor |].
  destruct e; cbn; try exact IH.
  constructor; [| exact IH].
  cbn in He. destruct He as (chunk & fullFileContent & _ & ->). now eexists.
Qed.

(** A truthy answer that is not an array makes [createComment] throw. *)
Lemma createComment_non_array (file : File) (chunk : Chunk) (aiResponses : value) :
  match aiResponses with
  | VArr _ => False
  | _ => True
  end ->
  createComment file chunk aiResponses = Throw TypeError.
Proof. destruct aiResponses; cbn; intros H; (reflexivity || contradiction). Qed.

(** A rejected request, an answer with no choice and a text that is not
    JSON leave the comments as they were, and the loop goes on. *)
Lemma analyzeChunks_recovers (file : File) (prDetails : PRDetails)
    (fullFileContent : option string) (chunk : Chunk) (rest : list Chunk)
    (comments : list ReviewComment) (s : State) :
  let prompt := createPrompt file chunk prDetails fullFileContent in
  let answer := chat_completions_create (requests s) (chat_request prompt) in
  answer = None
  \/ answer = Some []
  \/ (exists text others, answer = Some (Some text :: others)
                          /\ trim text <> EmptyString /\ JSON_parse (trim text) = None) ->
  analyzeChunks file prDetails fullFileContent (chunk :: rest) comments s
  = analyzeChunks file prDetails fullFileContent rest comments
      (snd (getAIResponse prompt s)).
Proof.
  intros prompt answer Hanswer.
  apply analyzeChunks_skips_falsy with (aiResponse := VNull); [| reflexivity].
  now apply getAIResponse_recovers.
Qed.

(** The throw leaves the loop: the chunks after it are never reached. *)
Lemma analyzeChunks_aborts (file : File) (prDetails : PRDetails)
    (fullFileContent : option string) (chunk : Chunk) (rest : list Chunk)
    (comments : list ReviewComment) (s : State) (aiResponse : value) (e : error) :
  fst (getAIResponse (createPrompt file chunk prDetails fullFileContent) s) = Ok aiResponse ->
  truthy aiResponse = true ->
  createComment file chunk aiResponse = Throw e ->
  analyzeChunks file prDetails fullFileContent (chunk :: rest) comments s
  = (Throw e, snd (getAIResponse (createPrompt file chunk prDetails fullFileContent) s)).
Proof.
  intros Hresponse Htruthy Hthrow. rewrite analyzeChunks_cons.
  destruct (getAIResponse _ s) as [[v | e'] s1]; cbn in *; [| discriminate].
  injection Hresponse as ->. now rewrite Htruthy, Hthrow.
Qed.

End Answers.

(** The accept scenario: one review for line 10 of [b.txt] is posted in one
    call. *)
Example accept_scenario :
  fst (@main Sample.accepting Sample.opened start) = Ok tt
  /\ reviews_posted (trace (snd (@main Sample.accepting Sample.opened start)))
     = [[ {| body := VStr "Division by zero"; path := "b.txt"; line := Int 10 |} ]].
Proof. split; vm_compute; reflexivity. Qed.

(** A rejected request and a text that is not JSON cost the chunk its
    comments and nothing else: the second chunk is still reviewed. *)
Example recovered_scenarios :
  (fst (@main Sample.failing_provider Sample.opened start) = Ok tt
   /\ requests (snd (@main Sample.failing_provider Sample.opened start)) = 2%nat
   /\ reviews_posted (trace (snd (@main Sample.failing_provider Sample.opened start)))
      = [[ {| body := VStr "Division by zero"; path := "b.txt"; line := Int 10 |} ]])
  /\ (fst (@main Sample.unparsable Sample.opened start) = Ok tt
      /\ requests (snd (@main Sample.unparsable Sample.opened start)) = 2%nat
      /\ reviews_posted (trace (snd (@main Sample.unparsable Sample.opened start)))
         = [[ {| body := VStr "Division by zero"; path := "b.txt"; line := Int 10 |} ]]).
Proof. repeat split; vm_compute; reflexivity. Qed.

(** C2.  The run on a diff of one file with two chunks, where the model's
    first answer is valid JSON whose [reviews] is a single review object
    and not an array.  Nothing is caught: [createComment] throws a
    TypeError out of [analyzeCode] and [main], the second chunk is never
    sent to the model, no review is posted and the exit status is 1. *)
Theorem misshapen_answer_aborts_run :
  Sample.parse Sample.bare_object
  = Some (VObj [("reviews", VObj [("lineNumber", VNum (Int 10));
                                  ("reviewComment", VStr "Division by zero")])])
  /\ @createComment Sample.misshapen Sample.two_hunks Sample.earlier_chunk
       (VObj [("lineNumber", VNum (Int 10)); ("reviewComment", VStr "Division by zero")])
     = Throw TypeError
  /\ fst (@analyzeCode Sample.misshapen [Sample.two_hunks] Sample.prDetails start)
     = Throw TypeError
  /\ fst (@main Sample.misshapen Sample.opened start) = Throw TypeError
  /\ requests (snd (@main Sample.misshapen Sample.opened start)) = 1%nat
  /\ reviews_posted (trace (snd (@main Sample.misshapen Sample.opened start))) = []
  /\ exit_code (@main Sample.misshapen Sample.opened start) = 1.
Proof. repeat split; vm_compute; reflexivity. Qed.

(** C3.  Every model request carries the fixed sampling values and the
    JSON response format, and its model is the literal of [queryConfig]:
    with the model input configured as [gpt-4], the request of the run
    still names [gpt-4o-2024-11-20]. *)
Theorem configured_model_is_ignored :
  (forall (env : Environment) (prompt : string),
      model (chat_request prompt) = "gpt-4o-2024-11-20"
      /\ temperature (chat_request prompt) = (1 # 10)%Q
      /\ max_tokens (chat_request prompt) = 1000
      /\ top_p (chat_request prompt) = 1
      /\ frequency_penalty (chat_request prompt) = (1 # 10)%Q
      /\ presence_penalty (chat_request prompt) = (1 # 10)%Q
      /\ response_format (chat_request prompt) = "json_object")
  /\ @OPENAI_API_MODEL Sample.accepting = "gpt-4"
  /\ map model (chat_requests (trace (snd (@main Sample.accepting Sample.opened start))))
     = ["gpt-4o-2024-11-20"].
Proof.
  split; [intros env prompt; apply chat_request_fixed |].
  split; vm_compute; reflexivity.
Qed.

(* ================================================================= *)
(** ** Instances *)

Lemma changedLines_exact_witness :
  changedLines Sample.chunk = [9; 10]
  /\ forallb is_normal (changes Sample.context_only) = true
  /\ changedLines Sample.context_only = [].
Proof.
  split; [reflexivity |]. split; [reflexivity |].
  apply (proj2 (proj2 (proj2 (proj2 (changedLines_exact Sample.context_only))))).
  reflexivity.
Defined.

(** A Deletion's old-file number can be the new-file number of a Context
    change of the same chunk: the number is in the set through the
    Deletion. *)
Remark deletion_number_of_context_line :
  validLines Sample.deleting_chunk = [5]
  /\ map getLineNumber (changes Sample.deleting_chunk) = [Some 5; Some 5]
  /\ map isAddOrDel (changes Sample.deleting_chunk) = [true; false].
Proof. repeat split. Qed.

Lemma createComment_within_eligible_witness :
  @createComment Sample.accepting Sample.b_txt Sample.chunk
    (VArr (map entry [ {| lineNumber := "10"; reviewComment := "Division by zero" |};
                       {| lineNumber := "9999"; reviewComment := "Not in the diff" |};
                       {| lineNumber := "ten"; reviewComment := "Not a number" |};
                       {| lineNumber := "11"; reviewComment := "A context line" |} ]))
  = Ok [ {| body := VStr "Division by zero"; path := "b.txt"; line := Int 10 |} ]
  /\ Forall (fun c => eligible Sample.chunk (line c))
            [ {| body := VStr "Division by zero"; path := "b.txt"; line := Int 10 |} ].
Proof.
  assert (Hrun : @createComment Sample.accepting Sample.b_txt Sample.chunk
                   (VArr (map entry
                            [ {| lineNumber := "10"; reviewComment := "Division by zero" |};
                              {| lineNumber := "9999"; reviewComment := "Not in the diff" |};
                              {| lineNumber := "ten"; reviewComment := "Not a number" |};
                              {| lineNumber := "11"; reviewComment := "A context line" |} ]))
                 = Ok [ {| body := VStr "Division by zero"; path := "b.txt";
                           line := Int 10 |} ]) by reflexivity.
  split; [exact Hrun |].
  exact (proj1 (proj2 (@createComment_within_eligible Sample.accepting Sample.b_txt
                         Sample.chunk) _ _ Hrun)).
Defined.

Lemma createComment_app_witness :
  names_valid_line (env := Sample.accepting) Sample.chunk
    (entry {| lineNumber := "10"; reviewComment := "Division by zero" |}) = true
  /\ @createComment Sample.accepting Sample.b_txt Sample.chunk
       (VArr (repeat (entry {| lineNumber := "10"; reviewComment := "Division by zero" |}) 2))
     = Ok (repeat {| body := VStr "Division by zero"; path := "b.txt";
                     line := @Number Sample.accepting (VStr "10") |} 2).
Proof.
  split; [reflexivity |].
  apply (proj2 (proj2 (@createComment_app Sample.accepting Sample.b_txt Sample.chunk))
           {| lineNumber := "10"; reviewComment := "Division by zero" |} "b.txt" 2%nat);
    [reflexivity | discriminate | reflexivity].
Defined.

(* ================================================================= *)
(** ** createComment, entry by entry *)

Section Entries.
Context {env : Environment}.

Lemma comment_of_readable (file : File) (chunk : Chunk) (item : value) (to : string) :
  file_to file = Some to -> to <> EmptyString -> unreadable item = false ->
  comment_of file chunk item
  = Ok (if names_valid_line chunk item then [comment_for to item] else []).
Proof.
  intros Hto Hne Hitem. unfold comment_of, names_valid_line, comment_for.
  rewrite Hto. apply String.eqb_neq in Hne. rewrite Hne.
  unfold unreadable in Hitem. apply orb_false_elim in Hitem.
  destruct Hitem as [Hnull Hconv].
  assert (Hget : forall key, get item key = Ok (read item key)).
  { intros key. unfold read. destruct item; try discriminate; reflexivity. }
  rewrite !Hget. cbn [result_bind]. unfold to_number. rewrite Hconv. cbn [result_bind].
  destruct (Set_has _ _); reflexivity.
Qed.

Lemma comment_of_unreadable (file : File) (chunk : Chunk) (item : value) (to : string) :
  file_to file = Some to -> to <> EmptyString -> unreadable item = true ->
  comment_of file chunk item = Throw TypeError.
Proof.
  intros Hto Hne Hitem. unfold comment_of. rewrite Hto.
  apply String.eqb_neq in Hne. rewrite Hne.
  unfold unreadable in Hitem. destruct (nullish_value item) eqn:Hnull.
  - destruct item; try discriminate; reflexivity.
  - cbn in Hitem.
    assert (Hget : get item "lineNumber" = Ok (read item "lineNumber")).
    { unfold read. destruct item; try discriminate; reflexivity. }
    rewrite Hget. cbn [result_bind]. unfold to_number. now rewrite Hitem.
Qed.

Lemma comment_of_no_destination (file : File) (chunk : Chunk) (item : value) :
  has_destination file = false -> comment_of file chunk item = Ok [].
Proof.
  unfold has_destination, comment_of. destruct (file_to file) as [to |]; [| reflexivity].
  destruct (String.eqb to EmptyString); [reflexivity | discriminate].
Qed.

Lemma flatMap_items_ext {B} (f g : value -> result (list B)) (items : list value) :
  (forall item, f item = g item) -> flatMap_items f items = flatMap_items g items.
Proof.
  intros Hext. induction items as [| item items IH]; cbn; [reflexivity |].
  now rewrite Hext, IH.
Qed.

Lemma validLines_without_context (chunk : Chunk) :
  validLines (without_context chunk) = validLines chunk.
Proof.
  unfold validLines, without_context. cbn. now rewrite filter_changed_without_context.
Qed.

Lemma validLines_context_only (chunk : Chunk) :
  forallb is_normal (changes chunk) = true -> validLines chunk = [].
Proof.
  intros Hall. unfold validLines.
  replace (filter isAddOrDel (changes chunk)) with (@nil Change); [reflexivity |].
  induction (changes chunk) as [| c cs IH]; [reflexivity |].
  cbn in Hall. apply andb_prop in Hall. destruct Hall as [Hc Hcs].
  destruct c; try discriminate. cbn. now apply IH.
Qed.

Lemma createComment_throws_TypeError (file : File) (chunk : Chunk) (aiResponses : value)
    (e : error) :
  createComment file chunk aiResponses = Throw e -> e = TypeError.
Proof.
  unfold createComment, flatMap. destruct aiResponses; try (now intros [= <-]).
  induction items as [| item items IH]; cbn; [discriminate |].
  destruct (comment_of file chunk item) as [here | e'] eqn:Hhere; cbn.
  - destruct (flatMap_items (comment_of file chunk) items) as [there | e'']; cbn;
      [discriminate |].
    intros [= <-]. now apply IH.
  - intros [= <-]. unfold comment_of in Hhere.
    destruct (file_to file) as [to |]; [| discriminate].
    destruct (String.eqb to EmptyString); [discriminate |].
    destruct (get item "lineNumber") as [lineNumber_ | e0] eqn:Hget.
    + cbn [result_bind] in Hhere. unfold to_number in Hhere.
      destruct (Number_throws lineNumber_); [now injection Hhere as <- |].
      cbn [result_bind] in Hhere. destruct (negb (Set_has _ _)); [discriminate |].
      destruct item; cbn in Hget |- *; try discriminate; cbn in Hhere; discriminate.
    + cbn [result_bind] in Hhere. injection Hhere as <-.
      destruct item; cbn in Hget; try discriminate; now injection Hget as <-.
Qed.

End Entries.

(** X1.  On an array, for a file with a destination path, [createComment]
    throws a TypeError as soon as one entry is null or has a [lineNumber]
    that cannot be converted to a number, wherever it stands; otherwise it
    returns, in the order of the entries and one per entry, the comments of
    the entries that name a valid line, each with the entry's own review
    text, the file's destination path and the converted line number. *)
Theorem createComment_on_array {env : Environment} (file : File) (chunk : Chunk)
    (items : list value) (to : string) :
  file_to file = Some to -> to <> EmptyString ->
  createComment file chunk (VArr items)
  = if existsb unreadable items then Throw TypeError
    else Ok (map (comment_for to) (filter (names_valid_line chunk) items)).
Proof.
  intros Hto Hne. unfold createComment, flatMap.
  induction items as [| item items IH]; cbn [flatMap_items existsb filter map];
    [reflexivity |].
  destruct (unreadable item) eqn:Hitem; cbn [orb].
  - now rewrite (comment_of_unreadable _ _ _ Hto Hne Hitem).
  - rewrite (comment_of_readable _ _ _ Hto Hne Hitem), IH. cbn [result_bind].
    destruct (existsb unreadable items); [reflexivity |].
    cbn [result_bind]. destruct (names_valid_line chunk item); reflexivity.
Qed.

Lemma createComment_on_array_witness :
  @createComment Sample.accepting Sample.b_txt Sample.chunk
    (VArr [ entry {| lineNumber := "9"; reviewComment := "first" |};
            VStr "not a review";
            VObj [("lineNumber", VNum (Int 10))];
            VObj [("lineNumber", VObj [("valueOf", VNum (Int 10))])];
            entry {| lineNumber := "9"; reviewComment := "second" |} ])
  = Ok [ {| body := VStr "first"; path := "b.txt"; line := Int 9 |};
         {| body := VUndefined; path := "b.txt"; line := Int 10 |};
         {| body := VStr "second"; path := "b.txt"; line := Int 9 |} ]
  /\ @createComment Sample.accepting Sample.b_txt Sample.chunk
       (VArr [ entry {| lineNumber := "9"; reviewComment := "first" |}; VNull ])
     = Throw TypeError
  /\ @createComment Sample.accepting Sample.b_txt Sample.chunk
       (VArr [ entry {| lineNumber := "9"; reviewComment := "first" |};
               VObj [("lineNumber", VObj [("toString", VNum (Int 1))])] ])
     = Throw TypeError
  /\ @createComment Sample.accepting Sample.b_txt Sample.chunk
       (VArr [ VObj [("lineNumber", VArr [VNum (Int 9);
                                          VObj [("toString", VNull)]])] ])
     = Throw TypeError.
Proof.
  split; [| split; [| split]].
  - exact (@createComment_on_array Sample.accepting Sample.b_txt Sample.chunk _ "b.txt"
             eq_refl ltac:(discriminate)).
  - exact (@createComment_on_array Sample.accepting Sample.b_txt Sample.chunk
             [ entry {| lineNumber := "9"; reviewComment := "first" |}; VNull ] "b.txt"
             eq_refl ltac:(discriminate)).
  - exact (@createComment_on_array Sample.accepting Sample.b_txt Sample.chunk
             [ entry {| lineNumber := "9"; reviewComment := "first" |};
               VObj [("lineNumber", VObj [("toString", VNum (Int 1))])] ] "b.txt"
             eq_refl ltac:(discriminate)).
  - exact (@createComment_on_array Sample.accepting Sample.b_txt Sample.chunk
             [ VObj [("lineNumber", VArr [VNum (Int 9); VObj [("toString", VNull)]])] ]
             "b.txt" eq_refl ltac:(discriminate)).
Defined.

(** X2.  For a file whose destination path is missing or empty,
    [createComment] returns no comment for every array, null entries
    included: the path test comes before any read of the entry. *)
Theorem createComment_without_destination {env : Environment} (file : File)
    (chunk : Chunk) (items : list value) :
  has_destination file = false ->
  createComment file chunk (VArr items) = Ok [].
Proof.
  intros Hfile. unfold createComment, flatMap.
  induction items as [| item items IH]; cbn; [reflexivity |].
  now rewrite (comment_of_no_destination _ chunk item Hfile), IH.
Qed.

Lemma createComment_without_destination_witness :
  has_destination Sample.unnamed = false
  /\ @createComment Sample.accepting Sample.unnamed Sample.chunk
       (VArr [ VNull; entry {| lineNumber := "10"; reviewComment := "Division by zero" |} ])
     = Ok [].
Proof.
  split; [reflexivity |].
  now apply (@createComment_without_destination Sample.accepting).
Defined.

(** X3.  [createComment] looks at the chunk's Addition and Deletion changes
    only: the chunk stripped of its Context changes gives the same outcome
    on every value, and a chunk of Context changes only never yields a
    comment. *)
Theorem createComment_ignores_context {env : Environment} (file : File) (chunk : Chunk)
    (aiResponses : value) :
  createComment file (without_context chunk) aiResponses
  = createComment file chunk aiResponses
  /\ (forallb is_normal (changes chunk) = true ->
      forall comments, createComment file chunk aiResponses = Ok comments ->
                       comments = []).
Proof.
  split.
  - unfold createComment, flatMap. destruct aiResponses; try reflexivity.
    apply flatMap_items_ext. intros item. unfold comment_of.
    now rewrite validLines_without_context.
  - intros Hall comments Hok. pose proof (flatMap_items_eligible file chunk) as Hel.
    unfold createComment, flatMap in Hok. destruct aiResponses; try discriminate.
    specialize (Hel items comments Hok).
    destruct comments as [| c comments]; [reflexivity |].
    apply Forall_inv in Hel. apply Set_has_eligible in Hel.
    rewrite (validLines_context_only chunk Hall) in Hel.
    destruct (line c); discriminate.
Qed.

Lemma createComment_ignores_context_witness :
  forallb is_normal (changes Sample.context_only) = true
  /\ (forall comments,
        @createComment Sample.accepting Sample.b_txt Sample.context_only
          (VArr [ entry {| lineNumber := "1"; reviewComment := "On a context line" |} ])
        = Ok comments -> comments = []).
Proof.
  split; [reflexivity |].
  exact (proj2 (@createComment_ignores_context Sample.accepting Sample.b_txt
                  Sample.context_only _) eq_refl).
Defined.

(* ================================================================= *)
(** ** The two calls that recover *)

Lemma getFileContent_exact {env : Environment} (owner repo : string)
    (path : option string) (ref : string) (s : State) :
  getFileContent owner repo path ref s
  = (Ok (match repos_getContent owner repo path ref with
         | Some fullFileContent => fullFileContent
         | None => None
         end),
     {| requests := requests s;
        trace := trace s
                 ++ E_getContent owner repo path ref
                 :: match repos_getContent owner repo path ref with
                    | Some _ => []
                    | None => [E_console_error "Error fetching file content"]
                    end |}).
Proof.
  unfold getFileContent, try_catch, bind, await, emit, ret, throw.
  destruct (repos_getContent owner repo path ref); cbn; [reflexivity |].
  now rewrite <- app_assoc.
Qed.

(** X4.  [getFileContent] never throws: it issues one content request and
    returns what the host answered; when the request is rejected it logs
    one console error and returns null.  The count of model requests is
    untouched. *)
Theorem getFileContent_never_throws {env : Environment} (owner repo : string)
    (path : option string) (ref : string) (s : State) :
  getFileContent owner repo path ref s
  = (Ok (match repos_getContent owner repo path ref with
         | Some fullFileContent => fullFileContent
         | None => None
         end),
     {| requests := requests s;
        trace := trace s
                 ++ E_getContent owner repo path ref
                 :: match repos_getContent owner repo path ref with
                    | Some _ => []
                    | None => [E_console_error "Error fetching file content"]
                    end |}).
Proof. apply getFileContent_exact. Qed.

(** X5.  [getAIResponse] never throws, and issues exactly one model
    request, for the given prompt.  A rejected request, an answer without
    choices, a text that is not JSON and a JSON null each leave exactly one
    console error after the request and come back as null; every other
    answer leaves no console error and comes back as the [reviews] property
    of what the text of its first choice parsed to. *)
Theorem getAIResponse_never_throws {env : Environment} (prompt : string) (s : State) :
  (exists aiResponse s1 new,
      getAIResponse prompt s = (Ok aiResponse, s1)
      /\ requests s1 = S (requests s)
      /\ trace s1 = trace s ++ new
      /\ chat_requests new = [chat_request prompt])
  /\ (chat_completions_create (requests s) (chat_request prompt) = None
      \/ chat_completions_create (requests s) (chat_request prompt) = Some []
      \/ (exists first others,
             chat_completions_create (requests s) (chat_request prompt)
             = Some (first :: others)
             /\ (JSON_parse (parsed_text first) = None
                 \/ exists parsed, JSON_parse (parsed_text first) = Some parsed
                                    /\ nullish_value parsed = true)) ->
      getAIResponse prompt s
      = (Ok VNull,
         {| requests := S (requests s);
            trace := trace s ++ [E_chat (chat_request prompt); E_console_error "Error:"] |}))
  /\ (forall first others parsed,
        chat_completions_create (requests s) (chat_request prompt)
        = Some (first :: others) ->
        JSON_parse (parsed_text first) = Some parsed ->
        nullish_value parsed = false ->
        getAIResponse prompt s
        = (Ok (read parsed "reviews"),
           {| requests := S (requests s);
              trace := trace s ++ [E_chat (chat_request prompt)] |})).
Proof.
  unfold getAIResponse, try_catch, bind, next_request, await, emit, lift, ret, throw.
  cbn [requests trace]. split; [| split].
  - destruct (chat_completions_create (requests s) (chat_request prompt))
      as [[| first others] |]; cbn.
    + do 2 eexists. exists [E_chat (chat_request prompt); E_console_error "Error:"].
      split; [reflexivity |]. cbn. rewrite <- app_assoc. auto.
    + change (match first with
              | Some text => if String.eqb (trim text) EmptyString then "{}" else trim text
              | None => "{}"
              end) with (parsed_text first).
      destruct (JSON_parse (parsed_text first)) as [parsed |]; cbn.
      * destruct (get parsed "reviews") as [reviews | e]; cbn; do 2 eexists.
        -- exists [E_chat (chat_request prompt)]. split; [reflexivity |]. cbn. auto.
        -- exists [E_chat (chat_request prompt); E_console_error "Error:"].
           split; [reflexivity |]. cbn. rewrite <- app_assoc. auto.
      * do 2 eexists. exists [E_chat (chat_request prompt); E_console_error "Error:"].
        split; [reflexivity |]. cbn. rewrite <- app_assoc. auto.
    + do 2 eexists. exists [E_chat (chat_request prompt); E_console_error "Error:"].
      split; [reflexivity |]. cbn. rewrite <- app_assoc. auto.
  - intros [-> | [-> | (first & others & -> & Hparse)]]; cbn;
      try (now rewrite <- app_assoc).
    change (match first with
            | Some text => if String.eqb (trim text) EmptyString then "{}" else trim text
            | None => "{}"
            end) with (parsed_text first).
    destruct Hparse as [-> | (parsed & -> & Hnull)]; cbn; [now rewrite <- app_assoc |].
    destruct parsed; try discriminate; cbn; now rewrite <- app_assoc.
  - intros first others parsed -> Hparse Hnull. cbn.
    change (match first with
            | Some text => if String.eqb (trim text) EmptyString then "{}" else trim text
            | None => "{}"
            end) with (parsed_text first).
    rewrite Hparse. cbn. unfold read.
    destruct parsed; try discriminate; reflexivity.
Qed.

Lemma getAIResponse_never_throws_witness :
  @chat_completions_create Sample.failing_provider 0%nat (chat_request "prompt") = None
  /\ @getAIResponse Sample.failing_provider "prompt" start
     = (Ok VNull,
        {| requests := 1;
           trace := [E_chat (chat_request "prompt"); E_console_error "Error:"] |})
  /\ @getAIResponse Sample.unparsable "prompt" start
     = (Ok VNull,
        {| requests := 1;
           trace := [E_chat (chat_request "prompt"); E_console_error "Error:"] |})
  /\ @getAIResponse Sample.accepting "prompt" start
     = (Ok (VArr [VObj [("lineNumber", VStr "10");
                        ("reviewComment", VStr "Division by zero")]]),
        {| requests := 1; trace := [E_chat (chat_request "prompt")] |}).
Proof.
  split; [reflexivity |]. split; [| split].
  - apply (proj1 (proj2 (@getAIResponse_never_throws Sample.failing_provider "prompt"
                           start))).
    left. reflexivity.
  - apply (proj1 (proj2 (@getAIResponse_never_throws Sample.unparsable "prompt" start))).
    right. right. exists (Some Sample.not_json), []. split; [reflexivity |].
    left. reflexivity.
  - exact (proj2 (proj2 (@getAIResponse_never_throws Sample.accepting "prompt" start))
             (Some Sample.one_review) [] _ eq_refl eq_refl eq_refl).
Defined.

(** X6.  An answer whose first choice has no content, or a content of white
    space only, is read as the text of an empty object: where that text
    parses to the empty object, [getAIResponse] returns undefined and logs
    no error. *)
Theorem getAIResponse_empty_answer {env : Environment} (prompt : string) (s : State)
    (first : option string) (others : list (option string)) :
  chat_completions_create (requests s) (chat_request prompt) = Some (first :: others) ->
  match first with
  | Some text => trim text = EmptyString
  | None => True
  end ->
  JSON_parse "{}" = Some (VObj []) ->
  getAIResponse prompt s
  = (Ok VUndefined,
     {| requests := S (requests s);
        trace := trace s ++ [E_chat (chat_request prompt)] |}).
Proof.
  intros Hanswer Hfirst Hparse.
  unfold getAIResponse, try_catch, bind, next_request, await, emit, lift, ret, throw.
  cbn [requests trace]. rewrite Hanswer. cbn.
  destruct first as [text |]; [rewrite Hfirst; cbn |]; now rewrite Hparse.
Qed.

Lemma getAIResponse_empty_answer_witness :
  trim "  " = EmptyString
  /\ fst (@getAIResponse Cases.empty_answers "prompt" start) = Ok VUndefined.
Proof.
  split; [reflexivity |].
  exact (f_equal fst (@getAIResponse_empty_answer Cases.empty_answers "prompt" start
                        (Some "  ") [] eq_refl eq_refl eq_refl)).
Defined.

(** X7.  A truthy result of [getAIResponse] is the [reviews] property of the
    JSON object that the text of the answer's first choice parsed to.  When
    that text parses to anything else, the result is falsy, null for a JSON
    null and undefined for a boolean, a number, a string or an array, so
    that [analyzeCode] does not call [createComment]. *)
Theorem getAIResponse_truthy_from_object {env : Environment} (prompt : string)
    (s : State) :
  (forall aiResponse,
      fst (getAIResponse prompt s) = Ok aiResponse ->
      truthy aiResponse = true ->
      exists first others fields,
        chat_completions_create (requests s) (chat_request prompt)
        = Some (first :: others)
        /\ JSON_parse (parsed_text first) = Some (VObj fields)
        /\ own_property "reviews" fields = aiResponse)
  /\ (forall first others parsed,
        chat_completions_create (requests s) (chat_request prompt)
        = Some (first :: others) ->
        JSON_parse (parsed_text first) = Some parsed ->
        match parsed with
        | VObj _ => False
        | _ => True
        end ->
        fst (getAIResponse prompt s)
        = Ok (if nullish_value parsed then VNull else VUndefined)
        /\ truthy (if nullish_value parsed then VNull else VUndefined) = false).
Proof.
  unfold getAIResponse, try_catch, bind, next_request, await, emit, lift, ret, throw.
  cbn [requests trace]. split.
  - intros aiResponse.
    destruct (chat_completions_create (requests s) (chat_request prompt))
      as [[| first others] |]; cbn; try (intros [= <-]; discriminate).
    change (match first with
            | Some text => if String.eqb (trim text) EmptyString then "{}" else trim text
            | None => "{}"
            end) with (parsed_text first).
    destruct (JSON_parse (parsed_text first)) as [parsed |] eqn:Hparse; cbn;
      try (intros [= <-]; discriminate).
    destruct parsed; cbn; intros [= <-]; try discriminate.
    intros _. exists first, others, fields. auto.
  - intros first others parsed -> Hparse Hshape. cbn.
    change (match first with
            | Some text => if String.eqb (trim text) EmptyString then "{}" else trim text
            | None => "{}"
            end) with (parsed_text first).
    rewrite Hparse. destruct parsed; try contradiction; cbn; auto.
Qed.

Lemma getAIResponse_truthy_from_object_witness :
  fst (@getAIResponse Sample.accepting "prompt" start)
  = Ok (VArr [VObj [("lineNumber", VStr "10"); ("reviewComment", VStr "Division by zero")]])
  /\ exists first others fields,
       @chat_completions_create Sample.accepting 0%nat (chat_request "prompt")
       = Some (first :: others)
       /\ Sample.parse (parsed_text first) = Some (VObj fields)
       /\ own_property "reviews" fields
          = VArr [VObj [("lineNumber", VStr "10");
                        ("reviewComment", VStr "Division by zero")]].
Proof.
  split; [reflexivity |].
  exact (proj1 (@getAIResponse_truthy_from_object Sample.accepting "prompt" start) _
           eq_refl eq_refl).
Defined.

(* ================================================================= *)
(** ** The review loop, request by request *)

Section Loop.
Context {env : Environment}.

Lemma chat_requests_app (a b : list Event) :
  chat_requests (a ++ b) = chat_requests a ++ chat_requests b.
Proof. apply flat_map_app. Qed.

Lemma content_fetches_app (a b : list Event) :
  content_fetches (a ++ b) = content_fetches a ++ content_fetches b.
Proof. apply flat_map_app. Qed.

Lemma reviews_posted_app (a b : list Event) :
  reviews_posted (a ++ b) = reviews_posted a ++ reviews_posted b.
Proof. apply flat_map_app. Qed.

Lemma reviews_posted_none (events : list Event) :
  Forall (fun e => is_createReview e = false) events -> reviews_posted events = [].
Proof.
  induction 1 as [| e events He _ IH]; [reflexivity |].
  destruct e; try discriminate; exact IH.
Qed.

Lemma context_for_fetched (prDetails : PRDetails) (file : File) :
  match
    match repos_getContent (owner prDetails) (repo prDetails) (file_to file)
            ("pull/" ++ string_of_Z (pull_number prDetails) ++ "/head")%string with
    | Some fullFileContent => fullFileContent
    | None => None
    end
  with
  | Some text => if String.eqb text EmptyString then None else Some text
  | None => None
  end = context_for prDetails file.
Proof. unfold context_for. destruct (repos_getContent _ _ _ _) as [[text |] |]; reflexivity. Qed.

(** The requests of the inner loop are those of its chunks, in order; the
    chunks after a throw are not asked about. *)
Lemma analyzeChunks_requests (file : File) (prDetails : PRDetails)
    (fullFileContent : option string) (todo : list Chunk) :
  forall (comments : list ReviewComment) (s : State),
  exists new unasked,
    trace (snd (analyzeChunks file prDetails fullFileContent todo comments s))
    = trace s ++ new
    /\ map (fun chunk => chat_request (createPrompt file chunk prDetails fullFileContent)) todo
       = chat_requests new ++ unasked
    /\ requests (snd (analyzeChunks file prDetails fullFileContent todo comments s))
       = (requests s + length (chat_requests new))%nat
    /\ content_fetches new = []
    /\ forall comments',
        fst (analyzeChunks file prDetails fullFileContent todo comments s) = Ok comments' ->
        unasked = [].
Proof.
  induction todo as [| chunk rest IH]; intros comments s.
  - exists [], []. cbn. rewrite app_nil_r, Nat.add_0_r. auto.
  - rewrite analyzeChunks_cons.
    destruct (getAIResponse_run (createPrompt file chunk prDetails fullFileContent) s)
      as (aiResponse & s1 & logs & Hrun & Hcount & Htrace & Hlogs).
    rewrite Hrun.
    assert (Hhere : chat_requests (E_chat (chat_request
                                     (createPrompt file chunk prDetails fullFileContent))
                                   :: logs)
                    = [chat_request (createPrompt file chunk prDetails fullFileContent)]
                    /\ content_fetches (E_chat (chat_request
                                          (createPrompt file chunk prDetails fullFileContent))
                                        :: logs) = []).
    { destruct Hlogs as [-> | [-> _]]; split; reflexivity. }
    destruct Hhere as [Hasked Hfetched].
    assert (Hstep : forall comments1,
               exists new unasked,
                 trace (snd (analyzeChunks file prDetails fullFileContent rest comments1 s1))
                 = trace s ++ new
                 /\ map (fun c => chat_request (createPrompt file c prDetails fullFileContent))
                        (chunk :: rest)
                    = chat_requests new ++ unasked
                 /\ requests (snd (analyzeChunks file prDetails fullFileContent rest
                                     comments1 s1))
                    = (requests s + length (chat_requests new))%nat
                 /\ content_fetches new = []
                 /\ forall comments',
                     fst (analyzeChunks file prDetails fullFileContent rest comments1 s1)
                     = Ok comments' -> unasked = []).
    { intros comments1.
      destruct (IH comments1 s1) as (new & unasked & Hnew & Hmap & Hreq & Hfetch & Hdone).
      exists ((E_chat (chat_request (createPrompt file chunk prDetails fullFileContent))
               :: logs) ++ new), unasked.
      split; [rewrite Hnew, Htrace; now rewrite <- app_assoc |].
      split; [rewrite chat_requests_app, Hasked; cbn [map app]; now rewrite Hmap |].
      split; [rewrite chat_requests_app, Hasked, Hreq, Hcount; cbn; lia |].
      split; [rewrite content_fetches_app, Hfetched, Hfetch; reflexivity |].
      exact Hdone. }
    destruct (truthy aiResponse); [| apply Hstep].
    destruct (createComment file chunk aiResponse) as [newComments | e]; [apply Hstep |].
    exists (E_chat (chat_request (createPrompt file chunk prDetails fullFileContent)) :: logs),
      (map (fun c => chat_request (createPrompt file c prDetails fullFileContent)) rest).
    cbn [fst snd]. split; [assumption |].
    split; [rewrite Hasked; reflexivity |].
    split; [rewrite Hasked, Hcount; cbn; lia |].
    split; [assumption | discriminate].
Qed.

Lemma requests_for_cons (prDetails : PRDetails) (file : File) (rest : list File) :
  requests_for prDetails (file :: rest)
  = if deleted file then requests_for prDetails rest
    else map (fun chunk =>
                chat_request (createPrompt file chunk prDetails (context_for prDetails file)))
             (chunks file)
         ++ requests_for prDetails rest.
Proof. unfold requests_for. cbn [filter]. now destruct (deleted file). Qed.

Lemma analyzeFiles_requests (prDetails : PRDetails) (files : list File) :
  forall (comments : list ReviewComment) (s : State),
  exists new unasked,
    trace (snd (analyzeFiles prDetails files comments s)) = trace s ++ new
    /\ requests_for prDetails files = chat_requests new ++ unasked
    /\ requests (snd (analyzeFiles prDetails files comments s))
       = (requests s + length (chat_requests new))%nat
    /\ forall comments',
        fst (analyzeFiles prDetails files comments s) = Ok comments' ->
        unasked = []
        /\ content_fetches new = map file_to (filter (fun f => negb (deleted f)) files).
Proof.
  induction files as [| file rest IH]; intros comments s.
  - exists [], []. cbn. rewrite app_nil_r, Nat.add_0_r. auto.
  - rewrite analyzeFiles_cons, requests_for_cons. cbn [filter].
    destruct (deleted file) eqn:Hdeleted; cbn [negb]; [apply IH |].
    rewrite getFileContent_exact, context_for_fetched.
    set (fetch := E_getContent (owner prDetails) (repo prDetails) (file_to file)
                    ("pull/" ++ string_of_Z (pull_number prDetails) ++ "/head")%string
                  :: match repos_getContent (owner prDetails) (repo prDetails) (file_to file)
                             ("pull/" ++ string_of_Z (pull_number prDetails) ++ "/head")%string
                     with
                     | Some _ => []
                     | None => [E_console_error "Error fetching file content"]
                     end).
    assert (Hfetch : chat_requests fetch = [] /\ content_fetches fetch = [file_to file]).
    { subst fetch. destruct (repos_getContent _ _ _ _); split; reflexivity. }
    destruct Hfetch as [Hnone Hone].
    set (s1 := {| requests := requests s; trace := trace s ++ fetch |}).
    destruct (analyzeChunks_requests file prDetails (context_for prDetails file)
                (chunks file) comments s1)
      as (new1 & unasked1 & Htrace1 & Hmap1 & Hreq1 & Hfetch1 & Hdone1).
    destruct (analyzeChunks file prDetails (context_for prDetails file) (chunks file)
                comments s1) as [[comments1 | e] s2]; cbn [fst snd] in *.
    + specialize (Hdone1 comments1 eq_refl). subst unasked1. rewrite app_nil_r in Hmap1.
      destruct (IH comments1 s2) as (new2 & unasked2 & Htrace2 & Hmap2 & Hreq2 & Hdone2).
      exists (fetch ++ new1 ++ new2), unasked2.
      split; [rewrite Htrace2, Htrace1; subst s1; cbn; now rewrite <- !app_assoc |].
      split.
      { rewrite !chat_requests_app, Hnone, Hmap1, Hmap2. cbn [app].
        now rewrite app_assoc. }
      split.
      { rewrite !chat_requests_app, Hnone, Hreq2, Hreq1. subst s1. cbn.
        rewrite length_app. lia. }
      intros comments' Hok. destruct (Hdone2 comments' Hok) as [-> Hfetch2].
      split; [reflexivity |].
      rewrite !content_fetches_app, Hone, Hfetch1, Hfetch2. reflexivity.
    + exists (fetch ++ new1), (unasked1 ++ requests_for prDetails rest).
      split; [rewrite Htrace1; subst s1; cbn; now rewrite <- app_assoc |].
      split.
      { rewrite chat_requests_app, Hnone, Hmap1. cbn [app]. now rewrite app_assoc. }
      split; [rewrite chat_requests_app, Hnone, Hreq1; subst s1; reflexivity |].
      discriminate.
Qed.

(** Errors: the loops throw what [createComment] throws. *)
Lemma analyzeChunks_throws_TypeError (file : File) (prDetails : PRDetails)
    (fullFileContent : option string) (todo : list Chunk) :
  forall (comments : list ReviewComment) (s : State) (e : error),
    fst (analyzeChunks file prDetails fullFileContent todo comments s) = Throw e ->
    e = TypeError.
Proof.
  induction todo as [| chunk rest IH]; intros comments s e; [discriminate |].
  rewrite analyzeChunks_cons.
  destruct (getAIResponse_run (createPrompt file chunk prDetails fullFileContent) s)
    as (aiResponse & s1 & logs & Hrun & _).
  rewrite Hrun. destruct (truthy aiResponse); [| apply IH].
  destruct (createComment file chunk aiResponse) as [newComments | e'] eqn:Hnew;
    [apply IH |].
  cbn. intros [= <-]. eapply createComment_throws_TypeError; eassumption.
Qed.

Lemma analyzeFiles_throws_TypeError (prDetails : PRDetails) (files : list File) :
  forall (comments : list ReviewComment) (s : State) (e : error),
    fst (analyzeFiles prDetails files comments s) = Throw e -> e = TypeError.
Proof.
  induction files as [| file rest IH]; intros comments s e; [discriminate |].
  rewrite analyzeFiles_cons. destruct (deleted file); [apply IH |].
  rewrite getFileContent_exact.
  match goal with
  | |- context [analyzeChunks file prDetails ?c (chunks file) comments ?s1] =>
      pose proof (analyzeChunks_throws_TypeError file prDetails c (chunks file) comments s1)
        as Hinner;
      destruct (analyzeChunks file prDetails c (chunks file) comments s1)
        as [[comments1 | e'] s2]
  end; [apply IH |].
  cbn. intros [= <-]. now apply Hinner.
Qed.

(** Anchors: where the comments of the loops sit. *)
Lemma createComment_anchors (file : File) (chunk : Chunk) (aiResponses : value)
    (comments : list ReviewComment) :
  createComment file chunk aiResponses = Ok comments ->
  Forall (fun c => file_to file = Some (path c) /\ path c <> EmptyString
                   /\ eligible chunk (line c)) comments.
Proof.
  unfold createComment, flatMap. destruct aiResponses; try discriminate.
  revert comments. induction items as [| item items IH]; cbn; intros comments.
  - intros [= <-]. constructor.
  - destruct (comment_of file chunk item) as [here | e] eqn:Hhere; cbn; [| discriminate].
    destruct (flatMap_items (comment_of file chunk) items) as [there | e];
      cbn; [| discriminate].
    intros [= <-]. apply Forall_app. split; [| now apply IH].
    apply comment_of_cases in Hhere.
    destruct Hhere as [[-> _] | [to [Hto [Hne [Hvalid ->]]]]]; repeat constructor; cbn.
    + exact Hto.
    + exact Hne.
    + now apply Set_has_eligible.
Qed.

Lemma analyzeChunks_anchors (file : File) (prDetails : PRDetails)
    (fullFileContent : option string) (todo : list Chunk) :
  forall (comments comments' : list ReviewComment) (s : State),
    fst (analyzeChunks file prDetails fullFileContent todo comments s) = Ok comments' ->
    exists added,
      comments' = comments ++ added
      /\ Forall (fun c => file_to file = Some (path c) /\ path c <> EmptyString
                          /\ exists chunk, In chunk todo /\ eligible chunk (line c)) added.
Proof.
  induction todo as [| chunk rest IH]; intros comments comments' s.
  - intros [= <-]. exists []. rewrite app_nil_r. split; constructor.
  - rewrite analyzeChunks_cons.
    destruct (getAIResponse_run (createPrompt file chunk prDetails fullFileContent) s)
      as (aiResponse & s1 & logs & Hrun & _).
    rewrite Hrun.
    assert (Hweaken : forall l,
               Forall (fun c => file_to file = Some (path c) /\ path c <> EmptyString
                                /\ exists k, In k rest /\ eligible k (line c)) l ->
               Forall (fun c => file_to file = Some (path c) /\ path c <> EmptyString
                                /\ exists k, In k (chunk :: rest) /\ eligible k (line c)) l).
    { intros l. apply Forall_impl. intros c (Hto & Hne & k & Hk & Hel).
      split; [assumption |]. split; [assumption |]. exists k. split; [now right | assumption]. }
    destruct (truthy aiResponse).
    + destruct (createComment file chunk aiResponse) as [newComments | e] eqn:Hnew;
        [| discriminate].
      intros Hok. destruct (IH _ _ _ Hok) as (added & -> & Hadded).
      exists (newComments ++ added). split; [now rewrite app_assoc |].
      apply Forall_app. split; [| now apply Hweaken].
      apply createComment_anchors in Hnew. revert Hnew. apply Forall_impl.
      intros c (Hto & Hne & Hel). split; [assumption |]. split; [assumption |].
      exists chunk. split; [now left | assumption].
    + intros Hok. destruct (IH _ _ _ Hok) as (added & -> & Hadded).
      exists added. split; [reflexivity | now apply Hweaken].
Qed.

Lemma anchored_cons (file : File) (rest : list File) (c : ReviewComment) :
  anchored rest c -> anchored (file :: rest) c.
Proof.
  intros (f & chunk & Hin & H). exists f, chunk. split; [now right | assumption].
Qed.

Lemma analyzeFiles_anchors (prDetails : PRDetails) (files : list File) :
  forall (comments comments' : list ReviewComment) (s : State),
    fst (analyzeFiles prDetails files comments s) = Ok comments' ->
    exists added, comments' = comments ++ added /\ Forall (anchored files) added.
Proof.
  induction files as [| file rest IH]; intros comments comments' s.
  - intros [= <-]. exists []. rewrite app_nil_r. split; constructor.
  - rewrite analyzeFiles_cons. destruct (deleted file) eqn:Hdeleted.
    + intros Hok. destruct (IH _ _ _ Hok) as (added & -> & Hadded).
      exists added. split; [reflexivity |].
      revert Hadded. apply Forall_impl. intros c. apply anchored_cons.
    + rewrite getFileContent_exact.
      match goal with
      | |- context [analyzeChunks file prDetails ?c (chunks file) comments ?s1] =>
          pose proof (analyzeChunks_anchors file prDetails c (chunks file) comments) as Hinner;
          specialize (fun comments1 => Hinner comments1 s1);
          destruct (analyzeChunks file prDetails c (chunks file) comments s1)
            as [[comments1 | e'] s2]
      end; [| discriminate].
      destruct (Hinner comments1 eq_refl) as (added1 & -> & Hadded1).
      intros Hok. destruct (IH _ _ _ Hok) as (added2 & -> & Hadded2).
      exists (added1 ++ added2). split; [now rewrite app_assoc |].
      apply Forall_app. split.
      * revert Hadded1. apply Forall_impl. intros c (Hto & Hne & chunk & Hchunk & Hel).
        exists file, chunk. split; [now left |]. auto.
      * revert Hadded2. apply Forall_impl. intros c. apply anchored_cons.
Qed.

Lemma analyzeFiles_app (prDetails : PRDetails) (first second : list File) :
  forall (comments : list ReviewComment) (s : State),
    analyzeFiles prDetails (first ++ second) comments s
    = match analyzeFiles prDetails first comments s with
      | (Ok comments1, s1) => analyzeFiles prDetails second comments1 s1
      | (Throw e, s1) => (Throw e, s1)
      end.
Proof.
  induction first as [| file rest IH]; intros comments s; [reflexivity |].
  cbn [app]. rewrite !analyzeFiles_cons. destruct (deleted file); [apply IH |].
  destruct (getFileContent _ _ _ _ s) as [[c | e] s1]; [| reflexivity].
  destruct (analyzeChunks _ _ _ _ _ s1) as [[cs | e] s2]; [apply IH | reflexivity].
Qed.

End Loop.

(** X8.  Whatever leaves [analyzeCode] as an error is a TypeError: rejected
    content and model requests and texts that are not JSON are recovered
    inside, so the only throw is [createComment]'s. *)
Theorem analyzeCode_throws_only_TypeError {env : Environment} (parsedDiff : list File)
    (prDetails : PRDetails) (s : State) :
  (exists comments, fst (analyzeCode parsedDiff prDetails s) = Ok comments)
  \/ fst (analyzeCode parsedDiff prDetails s) = Throw TypeError.
Proof.
  destruct (fst (analyzeCode parsedDiff prDetails s)) as [comments | e] eqn:Hrun.
  - left. now exists comments.
  - right. f_equal. unfold analyzeCode in Hrun.
    now apply analyzeFiles_throws_TypeError in Hrun.
Qed.

(** X9.  [analyzeCode] asks the model once per chunk of each file that is
    not deleted, in diff order, each time with the prompt of that chunk and
    the file's fetched content as context.  The requests of a run are a
    prefix of that list and are what the request counter advances by; when
    the run returns they are the whole list, and the content fetches are
    one per such file, in order. *)
Theorem analyzeCode_requests_in_order {env : Environment} (parsedDiff : list File)
    (prDetails : PRDetails) (s : State) :
  exists new unasked,
    trace (snd (analyzeCode parsedDiff prDetails s)) = trace s ++ new
    /\ requests_for prDetails parsedDiff = chat_requests new ++ unasked
    /\ requests (snd (analyzeCode parsedDiff prDetails s))
       = (requests s + length (chat_requests new))%nat
    /\ forall comments,
        fst (analyzeCode parsedDiff prDetails s) = Ok comments ->
        unasked = []
        /\ content_fetches new
           = map file_to (filter (fun f => negb (deleted f)) parsedDiff).
Proof. apply analyzeFiles_requests. Qed.

(** X10.  Every comment [analyzeCode] returns sits on the non-empty
    destination path of a file of the diff that is not deleted, at a line
    that is the resolved number of an Addition or Deletion of one of that
    file's chunks. *)
Theorem analyzeCode_comments_anchored {env : Environment} (parsedDiff : list File)
    (prDetails : PRDetails) (s : State) (comments : list ReviewComment) :
  fst (analyzeCode parsedDiff prDetails s) = Ok comments ->
  Forall (anchored parsedDiff) comments.
Proof.
  intros Hok. unfold analyzeCode in Hok. apply analyzeFiles_anchors in Hok.
  destruct Hok as (added & -> & Hadded). exact Hadded.
Qed.

Lemma analyzeCode_comments_anchored_witness :
  fst (@analyzeCode Sample.unparsable [Sample.removed; Sample.two_hunks] Sample.prDetails
         start)
  = Ok [ {| body := VStr "Division by zero"; path := "b.txt"; line := Int 10 |} ]
  /\ Forall (anchored [Sample.removed; Sample.two_hunks])
            [ {| body := VStr "Division by zero"; path := "b.txt"; line := Int 10 |} ].
Proof.
  assert (Hrun : fst (@analyzeCode Sample.unparsable [Sample.removed; Sample.two_hunks]
                        Sample.prDetails start)
                 = Ok [ {| body := VStr "Division by zero"; path := "b.txt";
                           line := Int 10 |} ]) by (vm_compute; reflexivity).
  split; [exact Hrun |].
  exact (@analyzeCode_comments_anchored Sample.unparsable _ _ _ _ Hrun).
Defined.

(** X11.  Reviewing a diff is reviewing its first files and then the rest,
    with the comments and the state handed over; a throw in the first part
    ends the run there. *)
Theorem analyzeCode_app {env : Environment} (first second : list File)
    (prDetails : PRDetails) (s : State) :
  analyzeCode (first ++ second) prDetails s
  = match analyzeCode first prDetails s with
    | (Ok comments, s1) => analyzeFiles prDetails second comments s1
    | (Throw e, s1) => (Throw e, s1)
    end.
Proof. apply analyzeFiles_app. Qed.

(* ================================================================= *)
(** ** Whole runs of main *)

Section Whole.
Context {env : Environment}.

(** [review] on a diff that is not empty. *)
Lemma review_text (prDetails : PRDetails) (text : string) (s : State) :
  String.eqb text EmptyString = false ->
  review prDetails (Some text) s
  = match analyzeCode (filteredDiff (parseDiff text)) prDetails
            {| requests := requests s; trace := trace s ++ [E_parseDiff text] |} with
    | (Ok [], s1) => (Ok tt, s1)
    | (Ok (c :: comments), s1) =>
        (match pulls_createReview (owner prDetails) (repo prDetails)
                 (pull_number prDetails) (c :: comments) with
         | Some _ => Ok tt
         | None => Throw RequestError
         end,
         {| requests := requests s1;
            trace := trace s1 ++ [E_createReview (owner prDetails) (repo prDetails)
                                                 (pull_number prDetails) (c :: comments)] |})
    | (Throw e, s1) => (Throw e, s1)
    end.
Proof.
  intros Htext. unfold review. rewrite Htext.
  unfold bind at 1. unfold emit at 1. unfold bind at 1.
  destruct (analyzeCode _ _ _) as [[[| c comments] | e] s1]; try reflexivity.
  unfold createReviewComment, await, bind, emit, ret, throw.
  destruct (pulls_createReview _ _ _ _) as [[] |]; reflexivity.
Qed.

Lemma review_nothing (prDetails : PRDetails) (diff : option string) (s : State) :
  nullish diff EmptyString = EmptyString ->
  review prDetails diff s
  = (Ok tt, {| requests := requests s;
               trace := trace s ++ [E_console_log "No diff found"] |}).
Proof.
  unfold review. destruct diff as [text |]; cbn; [| reflexivity].
  intros ->. reflexivity.
Qed.

(** [main], branch by branch. *)
Lemma main_rejected_metadata (eventData : EventData) (s : State) :
  pulls_get (repository_owner_login eventData) (repository_name eventData)
            (event_number eventData) = None ->
  main eventData s
  = (Throw RequestError,
     {| requests := requests s;
        trace := trace s ++ [E_pulls_get (repository_owner_login eventData)
                                         (repository_name eventData)
                                         (event_number eventData)] |}).
Proof.
  intros Hget. unfold main, getPRDetails, bind, await, emit, ret, throw.
  now rewrite Hget.
Qed.

Lemma main_opened (eventData : EventData) (s : State)
    (prResponse : option string * option string) :
  pulls_get (repository_owner_login eventData) (repository_name eventData)
            (event_number eventData) = Some prResponse ->
  is_string (action eventData) "opened" = true ->
  main eventData s
  = match pulls_get_diff (repository_owner_login eventData) (repository_name eventData)
            (event_number eventData) with
    | Some diff =>
        review (details_of eventData prResponse) diff
          {| requests := requests s;
             trace := (trace s ++ [E_pulls_get (repository_owner_login eventData)
                                               (repository_name eventData)
                                               (event_number eventData)])
                      ++ [E_pulls_get_diff (repository_owner_login eventData)
                                           (repository_name eventData)
                                           (event_number eventData)] |}
    | None =>
        (Throw RequestError,
         {| requests := requests s;
            trace := (trace s ++ [E_pulls_get (repository_owner_login eventData)
                                              (repository_name eventData)
                                              (event_number eventData)])
                     ++ [E_pulls_get_diff (repository_owner_login eventData)
                                          (repository_name eventData)
                                          (event_number eventData)] |})
    end.
Proof.
  intros Hget Hopened. unfold main, getPRDetails, getDiff, bind, await, emit, ret, throw.
  rewrite Hget, Hopened. cbn. destruct (pulls_get_diff _ _ _); reflexivity.
Qed.

Lemma main_synchronize (eventData : EventData) (s : State)
    (prResponse : option string * option string) :
  pulls_get (repository_owner_login eventData) (repository_name eventData)
            (event_number eventData) = Some prResponse ->
  is_string (action eventData) "opened" = false ->
  is_string (action eventData) "synchronize" = true ->
  main eventData s
  = match repos_compareCommits (repository_owner_login eventData)
            (repository_name eventData) (before eventData) (after eventData) with
    | Some text =>
        review (details_of eventData prResponse) (Some text)
          {| requests := requests s;
             trace := (trace s ++ [E_pulls_get (repository_owner_login eventData)
                                               (repository_name eventData)
                                               (event_number eventData)])
                      ++ [E_compareCommits (repository_owner_login eventData)
                                           (repository_name eventData)
                                           (before eventData) (after eventData)] |}
    | None =>
        (Throw RequestError,
         {| requests := requests s;
            trace := (trace s ++ [E_pulls_get (repository_owner_login eventData)
                                              (repository_name eventData)
                                              (event_number eventData)])
                     ++ [E_compareCommits (repository_owner_login eventData)
                                          (repository_name eventData)
                                          (before eventData) (after eventData)] |})
    end.
Proof.
  intros Hget Hopened Hsync. unfold main, getPRDetails, bind, await, emit, ret, throw.
  rewrite Hget, Hopened, Hsync. cbn. destruct (repos_compareCommits _ _ _ _); reflexivity.
Qed.

(** What [review] leaves in the trace: no diff fetch, and at most one
    review, which is then the last event, is not empty, is anchored in the
    filtered diff and decides the outcome. *)
Lemma review_run (prDetails : PRDetails) (diff : option string) (s : State) :
  exists new,
    trace (snd (review prDetails diff s)) = trace s ++ new
    /\ diff_fetches new = []
    /\ (reviews_posted new = []
        \/ exists front c comments text,
             new = front ++ [E_createReview (owner prDetails) (repo prDetails)
                                            (pull_number prDetails) (c :: comments)]
             /\ reviews_posted front = []
             /\ diff = Some text
             /\ In (E_parseDiff text) front
             /\ Forall (anchored (filteredDiff (parseDiff text))) (c :: comments)
             /\ fst (review prDetails diff s)
                = match pulls_createReview (owner prDetails) (repo prDetails)
                          (pull_number prDetails) (c :: comments) with
                  | Some _ => Ok tt
                  | None => Throw RequestError
                  end).
Proof.
  destruct (String.eqb (nullish diff EmptyString) EmptyString) eqn:Hdiff.
  - apply String.eqb_eq in Hdiff. rewrite (review_nothing prDetails diff s Hdiff).
    exists [E_console_log "No diff found"]. cbn. auto.
  - destruct diff as [text |]; [| discriminate]. cbn in Hdiff.
    rewrite (review_text prDetails text s Hdiff).
    set (s0 := {| requests := requests s; trace := trace s ++ [E_parseDiff text] |}).
    unfold analyzeCode.
    destruct (analyzeFiles_run prDetails (filteredDiff (parseDiff text)) [] s0)
      as (new & Htrace & Hfiles & Hnone & _).
    pose proof (@analyzeFiles_anchors env prDetails (filteredDiff (parseDiff text)) [])
      as Hanchors.
    specialize (fun comments' => Hanchors comments' s0).
    assert (Hquiet : diff_fetches new = []).
    { clear - Hfiles. induction Hfiles as [| e new (file & _ & _ & He) _ IH];
        [reflexivity |].
      destruct e; cbn in He |- *; try contradiction; exact IH. }
    apply reviews_posted_none in Hnone.
    destruct (analyzeFiles prDetails (filteredDiff (parseDiff text)) [] s0)
      as [[[| c comments] | e] s1]; cbn [fst snd] in *.
    + exists (E_parseDiff text :: new).
      split; [rewrite Htrace; subst s0; cbn; now rewrite <- app_assoc |].
      split; [exact Hquiet | left; exact Hnone].
    + exists ((E_parseDiff text :: new)
              ++ [E_createReview (owner prDetails) (repo prDetails)
                                 (pull_number prDetails) (c :: comments)]).
      split; [rewrite Htrace; subst s0; cbn; now rewrite <- !app_assoc |].
      split.
      { unfold diff_fetches. rewrite filter_app. cbn. fold (diff_fetches new).
        now rewrite Hquiet. }
      right. exists (E_parseDiff text :: new), c, comments, text.
      split; [reflexivity |]. split; [exact Hnone |]. split; [reflexivity |].
      split; [now left |]. split; [| reflexivity].
      destruct (Hanchors (c :: comments) eq_refl) as (added & Heq & Hadded).
      cbn in Heq. now subst added.
    + exists (E_parseDiff text :: new).
      split; [rewrite Htrace; subst s0; cbn; now rewrite <- app_assoc |].
      split; [exact Hquiet | left; exact Hnone].
Qed.

End Whole.

(** X12.  A run of [main] posts at most one review.  When it posts one, the
    review is the last event of the run and is not empty; the diff the run
    fetched for its action is the text it parsed, and each comment of the
    review is anchored in the files that text parses to and the exclusion
    filter keeps; and the run returns exactly when the host accepts the
    review. *)
Theorem main_posts_at_most_once {env : Environment} (eventData : EventData) (s : State) :
  exists new,
    trace (snd (main eventData s)) = trace s ++ new
    /\ (reviews_posted new = []
        \/ exists front c comments text,
             new = front ++ [E_createReview (repository_owner_login eventData)
                                            (repository_name eventData)
                                            (event_number eventData) (c :: comments)]
             /\ reviews_posted front = []
             /\ ((is_string (action eventData) "opened" = true
                  /\ pulls_get_diff (repository_owner_login eventData)
                        (repository_name eventData) (event_number eventData)
                      = Some (Some text))
                 \/ (is_string (action eventData) "opened" = false
                     /\ is_string (action eventData) "synchronize" = true
                     /\ repos_compareCommits (repository_owner_login eventData)
                          (repository_name eventData) (before eventData) (after eventData)
                        = Some text))
             /\ In (E_parseDiff text) front
             /\ Forall (anchored (filteredDiff (parseDiff text))) (c :: comments)
             /\ fst (main eventData s)
                = match pulls_createReview (repository_owner_login eventData)
                          (repository_name eventData) (event_number eventData)
                          (c :: comments) with
                  | Some _ => Ok tt
                  | None => Throw RequestError
                  end).
Proof.
  assert (Hafter : forall (prResponse : option string * option string) (fetch : Event)
                          (diff : option string) (fetched : string -> Prop),
             reviews_posted [fetch] = [] ->
             (forall text, diff = Some text -> fetched text) ->
             let s2 := {| requests := requests s;
                          trace := (trace s ++ [E_pulls_get (repository_owner_login eventData)
                                                            (repository_name eventData)
                                                            (event_number eventData)])
                                   ++ [fetch] |} in
             exists new,
               trace (snd (review (details_of eventData prResponse) diff s2)) = trace s ++ new
               /\ (reviews_posted new = []
                   \/ exists front c comments text,
                        new = front ++ [E_createReview (repository_owner_login eventData)
                                          (repository_name eventData)
                                          (event_number eventData) (c :: comments)]
                        /\ reviews_posted front = []
                        /\ fetched text
                        /\ In (E_parseDiff text) front
                        /\ Forall (anchored (filteredDiff (parseDiff text))) (c :: comments)
                        /\ fst (review (details_of eventData prResponse) diff s2)
                           = match pulls_createReview (repository_owner_login eventData)
                                     (repository_name eventData) (event_number eventData)
                                     (c :: comments) with
                             | Some _ => Ok tt
                             | None => Throw RequestError
                             end)).
  { intros prResponse fetch diff fetched Hfetch Hdiff s2.
    destruct (review_run (details_of eventData prResponse) diff s2)
      as (new & Htrace & _ & Hposted).
    exists ([E_pulls_get (repository_owner_login eventData) (repository_name eventData)
               (event_number eventData); fetch] ++ new).
    split; [rewrite Htrace; subst s2; cbn; now rewrite <- !app_assoc |].
    destruct Hposted
      as [Hnone | (front & c & comments & text & -> & Hfront & Htext & Hparsed & Hanch & Hout)].
    - left. rewrite reviews_posted_app, Hnone, app_nil_r.
      change (reviews_posted [fetch] = []). exact Hfetch.
    - right. exists ([E_pulls_get (repository_owner_login eventData)
                        (repository_name eventData) (event_number eventData); fetch]
                     ++ front), c, comments, text.
      split; [now rewrite app_assoc |].
      split; [rewrite reviews_posted_app, Hfront, app_nil_r; exact Hfetch |].
      split; [now apply Hdiff |].
      split; [apply in_or_app; now right |].
      split; [exact Hanch | exact Hout]. }
  destruct (pulls_get (repository_owner_login eventData) (repository_name eventData)
              (event_number eventData)) as [prResponse |] eqn:Hget.
  - destruct (is_string (action eventData) "opened") eqn:Hopened.
    + rewrite (main_opened eventData s Hget Hopened).
      destruct (pulls_get_diff _ _ _) as [diff |] eqn:Hdiff.
      * apply (Hafter prResponse _ diff
                 (fun text =>
                    (true = true /\ Some diff = Some (Some text))
                    \/ (true = false
                        /\ is_string (action eventData) "synchronize" = true
                        /\ repos_compareCommits (repository_owner_login eventData)
                             (repository_name eventData) (before eventData)
                             (after eventData) = Some text)));
          [reflexivity | intros text ->; left; split; reflexivity].
      * eexists. cbn. split; [now rewrite <- app_assoc |]. left. reflexivity.
    + destruct (is_string (action eventData) "synchronize") eqn:Hsync.
      * rewrite (main_synchronize eventData s Hget Hopened Hsync).
        destruct (repos_compareCommits _ _ _ _) as [text0 |] eqn:Hcompare.
        -- apply (Hafter prResponse _ (Some text0)
                    (fun text =>
                       (false = true
                        /\ pulls_get_diff (repository_owner_login eventData)
                             (repository_name eventData) (event_number eventData)
                           = Some (Some text))
                       \/ (false = false /\ true = true /\ Some text0 = Some text)));
             [reflexivity | intros text [= ->]; right; repeat split].
        -- eexists. cbn. split; [now rewrite <- app_assoc |]. left. reflexivity.
      * rewrite (main_unsupported eventData s Hopened Hsync), Hget.
        eexists. cbn. split; [now rewrite <- app_assoc |]. left. reflexivity.
  - rewrite (main_rejected_metadata eventData s Hget).
    eexists. cbn. split; [reflexivity |]. left. reflexivity.
Qed.

(** X13.  A run fetches at most one diff, of the kind the action selects:
    the pull request's own diff for [opened], the comparison of the
    payload's [before] and [after] commits for [synchronize], none for any
    other action or when the metadata fetch is rejected. *)
Theorem main_fetches_one_diff {env : Environment} (eventData : EventData) (s : State) :
  exists new,
    trace (snd (main eventData s)) = trace s ++ new
    /\ diff_fetches new
       = match pulls_get (repository_owner_login eventData) (repository_name eventData)
                 (event_number eventData) with
         | None => []
         | Some _ =>
             if is_string (action eventData) "opened" then
               [E_pulls_get_diff (repository_owner_login eventData)
                                 (repository_name eventData) (event_number eventData)]
             else if is_string (action eventData) "synchronize" then
               [E_compareCommits (repository_owner_login eventData)
                                 (repository_name eventData)
                                 (before eventData) (after eventData)]
             else []
         end.
Proof.
  assert (Hafter : forall (prResponse : option string * option string) (fetch : Event)
                          (diff : option string),
             diff_fetches [fetch] = [fetch] ->
             let s2 := {| requests := requests s;
                          trace := (trace s ++ [E_pulls_get (repository_owner_login eventData)
                                                            (repository_name eventData)
                                                            (event_number eventData)])
                                   ++ [fetch] |} in
             exists new,
               trace (snd (review (details_of eventData prResponse) diff s2)) = trace s ++ new
               /\ diff_fetches new = [fetch]).
  { intros prResponse fetch diff Hfetch s2.
    destruct (review_run (details_of eventData prResponse) diff s2)
      as (new & Htrace & Hquiet & _).
    exists ([E_pulls_get (repository_owner_login eventData) (repository_name eventData)
               (event_number eventData); fetch] ++ new).
    split; [rewrite Htrace; subst s2; cbn; now rewrite <- !app_assoc |].
    unfold diff_fetches in *. rewrite filter_app, Hquiet, app_nil_r.
    cbn [filter]. exact Hfetch. }
  destruct (pulls_get (repository_owner_login eventData) (repository_name eventData)
              (event_number eventData)) as [prResponse |] eqn:Hget.
  - destruct (is_string (action eventData) "opened") eqn:Hopened.
    + rewrite (main_opened eventData s Hget Hopened).
      destruct (pulls_get_diff _ _ _) as [diff |].
      * apply Hafter. reflexivity.
      * eexists. cbn. split; [now rewrite <- app_assoc |]. reflexivity.
    + destruct (is_string (action eventData) "synchronize") eqn:Hsync.
      * rewrite (main_synchronize eventData s Hget Hopened Hsync).
        destruct (repos_compareCommits _ _ _ _) as [text |].
        -- apply Hafter. reflexivity.
        -- eexists. cbn. split; [now rewrite <- app_assoc |]. reflexivity.
      * rewrite (main_unsupported eventData s Hopened Hsync), Hget.
        eexists. cbn. split; [now rewrite <- app_assoc |]. reflexivity.
  - rewrite (main_rejected_metadata eventData s Hget).
    eexists. cbn. split; [reflexivity |]. reflexivity.
Qed.

(** X14.  When the fetched diff is null or empty, the run logs that no diff
    was found and returns: the diff is not parsed, no content is fetched,
    no model request is made and no review is posted. *)
Theorem main_without_diff {env : Environment} (eventData : EventData) (s : State)
    (prResponse : option string * option string) :
  pulls_get (repository_owner_login eventData) (repository_name eventData)
            (event_number eventData) = Some prResponse ->
  (is_string (action eventData) "opened" = true
   /\ exists diff,
        pulls_get_diff (repository_owner_login eventData) (repository_name eventData)
                       (event_number eventData) = Some diff
        /\ nullish diff EmptyString = EmptyString)
  \/ (is_string (action eventData) "opened" = false
      /\ is_string (action eventData) "synchronize" = true
      /\ repos_compareCommits (repository_owner_login eventData)
           (repository_name eventData) (before eventData) (after eventData)
         = Some EmptyString) ->
  fst (main eventData s) = Ok tt
  /\ requests (snd (main eventData s)) = requests s
  /\ exists fetch,
       diff_fetches [fetch] = [fetch]
       /\ trace (snd (main eventData s))
          = trace s ++ [E_pulls_get (repository_owner_login eventData)
                                    (repository_name eventData) (event_number eventData);
                        fetch;
                        E_console_log "No diff found"].
Proof.
  intros Hget [[Hopened (diff & Hdiff & Hempty)] | (Hopened & Hsync & Hcompare)].
  - rewrite (main_opened eventData s Hget Hopened), Hdiff.
    rewrite (review_nothing _ diff _ Hempty). cbn.
    repeat split. eexists. split; [| now rewrite <- !app_assoc]. reflexivity.
  - rewrite (main_synchronize eventData s Hget Hopened Hsync), Hcompare.
    rewrite (review_nothing _ (Some EmptyString) _ eq_refl). cbn.
    repeat split. eexists. split; [| now rewrite <- !app_assoc]. reflexivity.
Qed.

Lemma main_without_diff_witness :
  fst (@main Cases.empty_diff Sample.opened start) = Ok tt
  /\ fst (@main Cases.empty_diff Cases.synchronize start) = Ok tt.
Proof.
  split.
  - apply (@main_without_diff Cases.empty_diff Sample.opened start
             (Some "Add ratio", None) eq_refl).
    left. split; [reflexivity |]. exists (Some EmptyString). split; reflexivity.
  - apply (@main_without_diff Cases.empty_diff Cases.synchronize start
             (Some "Add ratio", None) eq_refl).
    right. repeat split.
Defined.

(** X15.  A rejected metadata fetch or diff fetch ends the run at once with
    exit status 1: nothing after the rejected request happens, for any
    action. *)
Theorem main_fails_with_host {env : Environment} (eventData : EventData) (s : State) :
  (pulls_get (repository_owner_login eventData) (repository_name eventData)
             (event_number eventData) = None ->
   exit_code (main eventData s) = 1
   /\ snd (main eventData s)
      = {| requests := requests s;
           trace := trace s ++ [E_pulls_get (repository_owner_login eventData)
                                            (repository_name eventData)
                                            (event_number eventData)] |})
  /\ (forall prResponse,
        pulls_get (repository_owner_login eventData) (repository_name eventData)
                  (event_number eventData) = Some prResponse ->
        is_string (action eventData) "opened" = true ->
        pulls_get_diff (repository_owner_login eventData) (repository_name eventData)
                       (event_number eventData) = None ->
        exit_code (main eventData s) = 1
        /\ snd (main eventData s)
           = {| requests := requests s;
                trace := trace s ++ [E_pulls_get (repository_owner_login eventData)
                                                 (repository_name eventData)
                                                 (event_number eventData);
                                     E_pulls_get_diff (repository_owner_login eventData)
                                                      (repository_name eventData)
                                                      (event_number eventData)] |})
  /\ (forall prResponse,
        pulls_get (repository_owner_login eventData) (repository_name eventData)
                  (event_number eventData) = Some prResponse ->
        is_string (action eventData) "opened" = false ->
        is_string (action eventData) "synchronize" = true ->
        repos_compareCommits (repository_owner_login eventData) (repository_name eventData)
                             (before eventData) (after eventData) = None ->
        exit_code (main eventData s) = 1
        /\ snd (main eventData s)
           = {| requests := requests s;
                trace := trace s ++ [E_pulls_get (repository_owner_login eventData)
                                                 (repository_name eventData)
                                                 (event_number eventData);
                                     E_compareCommits (repository_owner_login eventData)
                                                      (repository_name eventData)
                                                      (before eventData)
                                                      (after eventData)] |}).
Proof.
  split; [| split].
  - intros Hget. rewrite (main_rejected_metadata eventData s Hget). split; reflexivity.
  - intros prResponse Hget Hopened Hdiff.
    rewrite (main_opened eventData s Hget Hopened), Hdiff. cbn.
    split; [reflexivity | now rewrite <- app_assoc].
  - intros prResponse Hget Hopened Hsync Hcompare.
    rewrite (main_synchronize eventData s Hget Hopened Hsync), Hcompare. cbn.
    split; [reflexivity | now rewrite <- app_assoc].
Qed.

Lemma main_fails_with_host_witness :
  exit_code (@main Cases.no_metadata Sample.closed start) = 1
  /\ exit_code (@main Cases.no_diff Sample.opened start) = 1.
Proof.
  split.
  - exact (proj1 (proj1 (@main_fails_with_host Cases.no_metadata Sample.closed start)
                    eq_refl)).
  - exact (proj1 (proj1 (proj2 (@main_fails_with_host Cases.no_diff Sample.opened start))
                    (Some "Add ratio", None) eq_refl eq_refl eq_refl)).
Defined.

(* ================================================================= *)
(** ** The exclusion patterns *)

Section Patterns.

Lemma has_comma_String (c : ascii) (s : string) :
  has_comma (String c s) = Ascii.eqb c ","%char || has_comma s.
Proof. unfold has_comma. cbn. now rewrite Ascii.eqb_sym. Qed.

Lemma split_comma_cons (s : string) : exists piece pieces, split_comma s = piece :: pieces.
Proof.
  induction s as [| c rest (piece & pieces & IH)]; cbn; [now eexists; eexists |].
  destruct (Ascii.eqb c ","%char); [now eexists; eexists |].
  rewrite IH. now eexists; eexists.
Qed.

Lemma split_comma_length (s : string) : length (split_comma s) = S (commas s).
Proof.
  induction s as [| c rest IH]; cbn; [reflexivity |].
  destruct (Ascii.eqb c ","%char); cbn; [now rewrite IH |].
  destruct (split_comma_cons rest) as (piece & pieces & Hsplit).
  rewrite Hsplit in IH |- *. exact IH.
Qed.

Lemma split_comma_no_comma (s : string) :
  Forall (fun piece => has_comma piece = false) (split_comma s).
Proof.
  induction s as [| c rest IH]; cbn; [repeat constructor |].
  destruct (Ascii.eqb c ","%char) eqn:Hc; [constructor; [reflexivity | exact IH] |].
  destruct (split_comma_cons rest) as (piece & pieces & Hsplit).
  rewrite Hsplit in IH |- *. inversion IH as [| ? ? Hpiece Hpieces]; subst.
  constructor; [| assumption]. now rewrite has_comma_String, Hc.
Qed.

Lemma split_comma_concat (s : string) : String.concat "," (split_comma s) = s.
Proof.
  induction s as [| c rest IH]; cbn; [reflexivity |].
  destruct (split_comma_cons rest) as (piece & pieces & Hsplit).
  assert (Hstep : forall sep x y l,
             String.concat sep (x :: y :: l)
             = (x ++ sep ++ String.concat sep (y :: l))%string) by reflexivity.
  destruct (Ascii.eqb c ","%char) eqn:Hc.
  - apply Ascii.eqb_eq in Hc. subst c. rewrite Hsplit in IH |- *.
    rewrite Hstep, IH. reflexivity.
  - rewrite Hsplit in IH |- *. destruct pieces as [| next pieces].
    + cbn in IH |- *. now rewrite IH.
    + rewrite Hstep in IH |- *. rewrite <- IH. reflexivity.
Qed.

Lemma has_comma_app (a b : string) :
  has_comma (a ++ b) = has_comma a || has_comma b.
Proof.
  induction a as [| c a IH]; [reflexivity |].
  change (String c a ++ b)%string with (String c (a ++ b)).
  now rewrite !has_comma_String, IH, orb_assoc.
Qed.

Lemma string_app_assoc (a b c : string) :
  ((a ++ b) ++ c)%string = (a ++ (b ++ c))%string.
Proof. induction a as [| x a IH]; cbn; [reflexivity | now rewrite IH]. Qed.

Lemma trimStart_String (a : ascii) (rest : string) :
  trimStart (String a rest)
  = if is_space a then trimStart rest
    else
      match rest with
      | EmptyString => String a rest
      | String b rest1 =>
          if two_byte_space a b then trimStart rest1
          else
            match rest1 with
            | EmptyString => String a rest
            | String c rest2 =>
                if three_byte_space a b c then trimStart rest2 else String a rest
            end
      end.
Proof. reflexivity. Qed.

(** [trimStart] takes one white space off and goes on. *)
Lemma trimStart_step (s : string) :
  trimStart s = match after_space s with
                | Some rest => trimStart rest
                | None => s
                end.
Proof.
  destruct s as [| a rest]; [reflexivity |].
  rewrite trimStart_String. cbn [after_space].
  destruct (is_space a); [reflexivity |].
  destruct rest as [| b rest1]; [reflexivity |].
  destruct (two_byte_space a b); [reflexivity |].
  destruct rest1 as [| c rest2]; [reflexivity |].
  destruct (three_byte_space a b c); reflexivity.
Qed.

Lemma after_space_cut (s rest : string) :
  after_space s = Some rest ->
  exists taken, s = (taken ++ rest)%string
                /\ (String.length rest < String.length s)%nat.
Proof.
  destruct s as [| a [| b [| c tail]]]; cbn [after_space];
    repeat match goal with
           | |- context [if ?test then _ else _] => destruct test
           end; intros [= <-];
    first [ exists (String a EmptyString); split; [reflexivity | cbn; lia]
          | exists (String a (String b EmptyString)); split; [reflexivity | cbn; lia]
          | exists (String a (String b (String c EmptyString)));
            split; [reflexivity | cbn; lia] ].
Qed.

Lemma after_space_app (s rest more : string) :
  after_space s = Some rest -> after_space (s ++ more) = Some (rest ++ more)%string.
Proof.
  destruct s as [| a [| b [| c tail]]]; cbn [after_space String.append];
    repeat match goal with
           | |- context [if ?test then _ else _] => destruct test
           end; intros [= <-]; try reflexivity.
Qed.

(** Induction on the length of a string. *)
Lemma by_length (P : string -> Prop) :
  (forall s, (forall t, (String.length t < String.length s)%nat -> P t) -> P s) ->
  forall s, P s.
Proof.
  intros Hstep s.
  assert (Hall : forall n t, (String.length t < n)%nat -> P t).
  { induction n as [| n IH]; intros t Ht; [lia |].
    apply Hstep. intros u Hu. apply IH. lia. }
  apply (Hall (S (String.length s))). lia.
Qed.

Lemma trimStart_suffix (s : string) : exists taken, s = (taken ++ trimStart s)%string.
Proof.
  induction s as [s IH] using by_length. rewrite trimStart_step.
  destruct (after_space s) as [rest |] eqn:Hspace; [| now exists EmptyString].
  destruct (after_space_cut s Hspace) as (taken & -> & Hshorter).
  destruct (IH rest Hshorter) as (taken' & Hrest).
  exists (taken ++ taken')%string. rewrite string_app_assoc. now rewrite <- Hrest.
Qed.

Lemma trimStart_no_space (s : string) : after_space (trimStart s) = None.
Proof.
  induction s as [s IH] using by_length. rewrite trimStart_step.
  destruct (after_space s) as [rest |] eqn:Hspace; [| exact Hspace].
  destruct (after_space_cut s Hspace) as (taken & _ & Hshorter). now apply IH.
Qed.

Lemma trimStart_fixed (s : string) : after_space s = None -> trimStart s = s.
Proof. intros Hspace. now rewrite trimStart_step, Hspace. Qed.

Lemma blank_app (a b : string) :
  blank a = true -> blank b = true -> blank (a ++ b) = true.
Proof.
  unfold blank. induction a as [a IH] using by_length. intros Ha Hb.
  rewrite trimStart_step in Ha. destruct (after_space a) as [rest |] eqn:Hspace.
  - rewrite trimStart_step, (after_space_app a b Hspace).
    destruct (after_space_cut a Hspace) as (taken & _ & Hshorter). now apply IH.
  - apply String.eqb_eq in Ha. now subst a.
Qed.

Lemma trimEnd_step (c : ascii) (rest : string) :
  trimEnd (String c rest)
  = if blank (String c rest) then EmptyString else String c (trimEnd rest).
Proof. reflexivity. Qed.

Lemma trimEnd_cut (s : string) :
  exists dropped, s = (trimEnd s ++ dropped)%string /\ blank dropped = true.
Proof.
  induction s as [| c rest (dropped & Hrest & Hblank)]; [now exists EmptyString |].
  rewrite trimEnd_step. destruct (blank (String c rest)) eqn:Hall.
  - now exists (String c rest).
  - exists dropped. split; [| assumption].
    change (String c (trimEnd rest) ++ dropped)%string
      with (String c (trimEnd rest ++ dropped)).
    now rewrite <- Hrest.
Qed.

Lemma trimEnd_trimEnd (s : string) : trimEnd (trimEnd s) = trimEnd s.
Proof.
  induction s as [| c rest IH]; [reflexivity |].
  rewrite trimEnd_step. destruct (blank (String c rest)) eqn:Hall; [reflexivity |].
  rewrite trimEnd_step, IH.
  destruct (blank (String c (trimEnd rest))) eqn:Hkept; [| reflexivity].
  destruct (trimEnd_cut rest) as (dropped & Hrest & Hblank).
  pose proof (blank_app (String c (trimEnd rest)) dropped Hkept Hblank) as Hwhole.
  change (String c (trimEnd rest) ++ dropped)%string
    with (String c (trimEnd rest ++ dropped)) in Hwhole.
  rewrite <- Hrest in Hwhole. congruence.
Qed.

Lemma trimStart_trimEnd (s : string) :
  after_space s = None -> trimStart (trimEnd s) = trimEnd s.
Proof.
  intros Hspace. apply trimStart_fixed.
  destruct (after_space (trimEnd s)) as [rest |] eqn:Hkept; [| reflexivity].
  destruct (trimEnd_cut s) as (dropped & Hs & _).
  apply (after_space_app _ dropped) in Hkept. rewrite <- Hs in Hkept. congruence.
Qed.

Lemma trim_trim (s : string) : trim (trim s) = trim s.
Proof.
  unfold trim. rewrite (trimStart_trimEnd (trimStart s) (trimStart_no_space s)).
  apply trimEnd_trimEnd.
Qed.

Lemma trim_no_comma (s : string) : has_comma s = false -> has_comma (trim s) = false.
Proof.
  intros Hs. unfold trim.
  destruct (trimStart_suffix s) as (taken & Hstart).
  destruct (trimEnd_cut (trimStart s)) as (dropped & Hend & _).
  rewrite Hstart, Hend, !has_comma_app in Hs.
  apply orb_false_elim in Hs. destruct Hs as [_ Hs].
  apply orb_false_elim in Hs. now destruct Hs.
Qed.

End Patterns.

(** A byte-order mark in front, a no-break space after a pattern and an
    ideographic space before the next are trimmed like the ASCII blanks. *)
Example trim_strips_unicode_space :
  map trim (split_comma (utf8 [239; 187; 191]%nat ++ "*.md" ++ utf8 [194; 160]%nat ++ ","
                         ++ utf8 [227; 128; 128]%nat ++ " x ")%string)
  = ["*.md"; "x"].
Proof. reflexivity. Qed.

(** X16.  The exclusion patterns are the comma-separated pieces of the
    [exclude] input, trimmed: there is one more pattern than there are
    commas in the input, so never none; no pattern holds a comma, so a
    brace alternative such as [{a,b}] is cut in two; trimming a pattern
    again changes nothing; and the untrimmed pieces joined by commas are
    the input. *)
Theorem excludePatterns_shape {env : Environment} :
  length excludePatterns = S (commas (getInput "exclude"))
  /\ Forall (fun pattern => has_comma pattern = false /\ trim pattern = pattern)
            excludePatterns
  /\ String.concat "," (split_comma (getInput "exclude")) = getInput "exclude".
Proof.
  unfold excludePatterns. split; [| split].
  - now rewrite length_map, split_comma_length.
  - apply Forall_map. generalize (split_comma_no_comma (getInput "exclude")).
    apply Forall_impl. intros piece Hpiece. split.
    + now apply trim_no_comma.
    + apply trim_trim.
  - apply split_comma_concat.
Qed.

(* ================================================================= *)
(** ** A provider that is down *)

Section Outage.
Context {env : Environment}.
Hypothesis down : forall n request, chat_completions_create n request = None.

Lemma analyzeChunks_outage (file : File) (prDetails : PRDetails)
    (fullFileContent : option string) (todo : list Chunk) :
  forall (comments : list ReviewComment) (s : State),
    fst (analyzeChunks file prDetails fullFileContent todo comments s) = Ok comments.
Proof.
  induction todo as [| chunk rest IH]; intros comments s; [reflexivity |].
  rewrite analyzeChunks_recovers; [apply IH |]. left. apply down.
Qed.

Lemma analyzeFiles_outage (prDetails : PRDetails) (files : list File) :
  forall (comments : list ReviewComment) (s : State),
    fst (analyzeFiles prDetails files comments s) = Ok comments.
Proof.
  induction files as [| file rest IH]; intros comments s; [reflexivity |].
  rewrite analyzeFiles_cons. destruct (deleted file); [apply IH |].
  rewrite getFileContent_exact.
  match goal with
  | |- context [analyzeChunks file prDetails ?c (chunks file) comments ?s1] =>
      pose proof (analyzeChunks_outage file prDetails c (chunks file) comments s1) as Hinner;
      destruct (analyzeChunks file prDetails c (chunks file) comments s1)
        as [[comments1 | e] s2]
  end; cbn in Hinner; [| discriminate].
  injection Hinner as ->. apply IH.
Qed.

End Outage.

(** X17.  When every model request is rejected, [analyzeCode] still
    returns, with no comment, after having asked about every chunk: an
    outage of the provider costs the review its comments and not the run. *)
Theorem analyzeCode_survives_outage {env : Environment} (parsedDiff : list File)
    (prDetails : PRDetails) (s : State) :
  (forall n request, chat_completions_create n request = None) ->
  fst (analyzeCode parsedDiff prDetails s) = Ok []
  /\ requests (snd (analyzeCode parsedDiff prDetails s))
     = (requests s + length (requests_for prDetails parsedDiff))%nat.
Proof.
  intros Hdown. pose proof (analyzeFiles_outage Hdown prDetails parsedDiff [] s) as Hok.
  split; [exact Hok |].
  destruct (analyzeFiles_requests prDetails parsedDiff [] s)
    as (new & unasked & _ & Hasked & Hcount & Hdone).
  destruct (Hdone [] Hok) as [-> _]. rewrite app_nil_r in Hasked.
  unfold analyzeCode. now rewrite Hcount, Hasked.
Qed.

Lemma analyzeCode_survives_outage_witness :
  fst (@analyzeCode (Sample.environment EmptyString "gpt-4" [Sample.two_hunks]
                       (fun _ => None))
         [Sample.removed; Sample.two_hunks] Sample.prDetails start) = Ok []
  /\ requests (snd (@analyzeCode (Sample.environment EmptyString "gpt-4" [Sample.two_hunks]
                                    (fun _ => None))
                      [Sample.removed; Sample.two_hunks] Sample.prDetails start)) = 2%nat.
Proof.
  exact (@analyzeCode_survives_outage
           (Sample.environment EmptyString "gpt-4" [Sample.two_hunks] (fun _ => None))
           [Sample.removed; Sample.two_hunks] Sample.prDetails start
           (fun _ _ => eq_refl)).
Defined.
